(** * Movie recommender ([app.py]): a shallow embedding and its properties

    The program is a Streamlit page around three pieces of logic:
    [load_data] (two pickled artifacts), [get_recommendations] (rank one
    row of the similarity matrix, skip the head, take [n]) and the title
    filter of [main] (a pandas [str.contains]).

    Conventions of the embedding:
    - a similarity score is a finite double; it is represented by the
      rational number it denotes ([Q]), so [<] on scores is [Qlt] and two
      scores tie when they are [Qeq]. The zero of [Q] stands for [+0.0];
      [-0.0], the infinities and NaN are not scores of the model. Where
      the code computes on a score (the product by 100 of the percent
      format) the result is rounded to binary64 as the machine does;
    - a [DataFrame] is the list of its rows, each with its index label and
      its [title] cell; [.iloc] is positional, [.index] gives labels;
    - Python exceptions are the [Raise] results of a small error monad, and
      [None] is the [None] of [option];
    - titles and queries are strings of bytes ([string]); the title
      filter is modelled on ASCII text only, and gives no answer when the
      query or a title has a byte outside ASCII. *)

From Stdlib Require Import String Ascii ZArith QArith Qround Qabs Qpower List
  Lia Lqa DecimalString Sorted Permutation Bool.
Import ListNotations.
Local Open Scope string_scope.
Local Open Scope Z_scope.

(** ** Exceptions and the error monad *)

(** [PatternError] is what the string backend of the title column raises
    for a malformed pattern: [re.error] for an object column,
    [pyarrow.lib.ArrowInvalid] for an Arrow-backed one. *)

Inductive exn : Type :=
| IndexError
| KeyError
| TypeError
| ValueError
| FileNotFoundError
| UnpicklingError
| PatternError.

Inductive res (A : Type) : Type :=
| Ok (a : A)
| Raise (e : exn).
Arguments Ok {A} a.
Arguments Raise {A} e.

Definition bind {A B : Type} (c : res A) (k : A -> res B) : res B :=
  match c with
  | Ok a => k a
  | Raise e => Raise e
  end.

Notation "x <- c ;; k" := (bind c (fun x => k))
  (at level 61, c at next level, right associativity).

Definition exn_eqb (e1 e2 : exn) : bool :=
  match e1, e2 with
  | IndexError, IndexError | KeyError, KeyError | TypeError, TypeError
  | ValueError, ValueError | FileNotFoundError, FileNotFoundError
  | UnpicklingError, UnpicklingError | PatternError, PatternError => true
  | _, _ => false
  end.

(** [try: body / except IndexError: return None]: the body's value is
    returned, an [IndexError] becomes the value [None], every other
    exception goes on to the caller. *)
Definition try_except_IndexError {A : Type} (body : res A) : res (option A) :=
  match body with
  | Ok a => Ok (Some a)
  | Raise e => if exn_eqb e IndexError then Ok None else Raise e
  end.

(** [try: body / except: return default]: a bare [except] catches all. *)
Definition try_except_all {A : Type} (body : res A) (default : A) : A :=
  match body with
  | Ok a => a
  | Raise _ => default
  end.

(** ** Data model *)

Record Item : Type := { index : nat; title : string }.

Definition DataFrame : Type := list Item.
Definition Matrix : Type := list (list Q).

(** The value of a key of a result [dict]. *)
Inductive pyval : Type :=
| PyStr (s : string)
| PyFloat (x : Q).

Definition dict : Type := list (string * pyval).

Fixpoint dict_get (d : dict) (k : string) : option pyval :=
  match d with
  | [] => None
  | (k', v) :: d' => if String.eqb k' k then Some v else dict_get d' k
  end.

(** The spec's Catalog invariant: the label of the i-th row is [i]
    (a default [RangeIndex]). *)
Fixpoint labels_from (k : nat) (df : DataFrame) : bool :=
  match df with
  | [] => true
  | it :: rest => Nat.eqb (index it) k && labels_from (S k) rest
  end.

Definition range_index (df : DataFrame) : bool := labels_from 0 df.

(** [catalog ["A"; "B"]] is the frame with those titles and labels 0, 1. *)
Fixpoint catalog_from (k : nat) (titles : list string) : DataFrame :=
  match titles with
  | [] => []
  | t :: rest => {| index := k; title := t |} :: catalog_from (S k) rest
  end.

Definition catalog (titles : list string) : DataFrame := catalog_from 0 titles.

(** [movies_df['title'].values] *)
Definition movie_list (movies_df : DataFrame) : list string :=
  map title movies_df.

(** ** Python and pandas primitives used by [get_recommendations] *)

(** [df[df['title'] == movie_title]]: the rows whose title equals the query
    (string equality, so case matters), in frame order. *)
Definition rows_with_title (movies_df : DataFrame) (movie_title : string)
  : DataFrame :=
  filter (fun it => String.eqb (title it) movie_title) movies_df.

(** [df.index[0]]: the label of the first row; [IndexError] on an empty
    frame. *)
Definition index_0 (df : DataFrame) : res nat :=
  match df with
  | [] => Raise IndexError
  | it :: _ => Ok (index it)
  end.

(** [seq[i]] for a non-negative [i]: [IndexError] out of range. This is
    [similarity[movie_index]] and, on a frame, [movies_df.iloc[i]]. *)
Definition getitem {A : Type} (l : list A) (i : nat) : res A :=
  match nth_error l i with
  | Some a => Ok a
  | None => Raise IndexError
  end.

Definition iloc (movies_df : DataFrame) (i : nat) : res Item :=
  getitem movies_df i.

(** [list(enumerate(distances))] *)
Fixpoint enumerate_from (k : nat) (distances : list Q) : list (nat * Q) :=
  match distances with
  | [] => []
  | d :: rest => (k, d) :: enumerate_from (S k) rest
  end.

Definition enumerate (distances : list Q) : list (nat * Q) :=
  enumerate_from 0 distances.

(** [a < b] on scores: the only comparison [sorted] makes. *)
Definition float_lt (a b : Q) : bool := negb (Qle_bool b a).

Section Sorted.
Context {A : Type} (key : A -> Q).

(** One step of a stable ascending sort: [x] came before every element
    of [l] in the input, so it stays before those of equal key. *)
Fixpoint insert_stable (x : A) (l : list A) : list A :=
  match l with
  | [] => [x]
  | y :: l' =>
      if float_lt (key y) (key x) then y :: insert_stable x l'
      else x :: y :: l'
  end.

Fixpoint sort_stable (l : list A) : list A :=
  match l with
  | [] => []
  | x :: l' => insert_stable x (sort_stable l')
  end.

(** [sorted(l, key=key, reverse=reverse)]. The sort is stable; with
    [reverse=True] CPython reverses the list, sorts it ascending and
    reverses the outcome. Any stable sort gives the same list. *)
Definition sorted (reverse : bool) (l : list A) : list A :=
  if reverse then rev (sort_stable (rev l)) else sort_stable l.
End Sorted.

(** An index of a slice, brought into [0 .. len]: negative ones count from
    the end. *)
Definition slice_bound (len i : Z) : Z :=
  if i <? 0 then Z.max (i + len) 0 else Z.min i len.

(** [l[start:stop]] *)
Definition py_slice {A : Type} (l : list A) (start stop : Z) : list A :=
  let len := Z.of_nat (length l) in
  let lo := slice_bound len start in
  let hi := slice_bound len stop in
  firstn (Z.to_nat (hi - lo)) (skipn (Z.to_nat lo) l).

(** ** The format [f"{x:.2%}"] *)

(** Round to the nearest integer, halves to the even one. *)
Definition round_half_even (x : Q) : Z :=
  let f := Qfloor x in
  match (x - inject_Z f ?= 1 # 2)%Q with
  | Lt => f
  | Gt => f + 1
  | Eq => if Z.even f then f else f + 1
  end.

Definition decimal (n : Z) : string :=
  NilZero.string_of_uint (N.to_uint (Z.to_N n)).

Definition two_digits (n : Z) : string :=
  if n <? 10 then "0" ++ decimal n else decimal n.

(** *** The product by 100, in binary64 *)

Definition two_to (e : Z) : Q := ((2 # 1) ^ e)%Q.

(** The exponent [k] with [2^k <= q < 2^(k+1)], for a positive [q]. *)
Definition floor_log2 (q : Q) : Z :=
  let k := Z.log2 (Qnum q) - Z.log2 (Zpos (Qden q)) in
  if Qle_bool (two_to k) q then k else k - 1.

(** The exponent of the unit in the last place of a positive [q]: 53
    bits of significand, and no exponent below that of the
    subnormals. *)
Definition ulp_exponent (q : Q) : Z := Z.max (floor_log2 q - 52) (-1074).

(** A number that is not negative, rounded to the nearest double, ties
    to the even significand. The exponent is not bounded above here: a
    result of [2^1024] or more is the sign that the machine gives
    infinity. *)
Definition round_binary64 (q : Q) : Q :=
  if Qle_bool q 0 then 0%Q
  else (inject_Z (round_half_even (q * two_to (- ulp_exponent q)))
        * two_to (ulp_exponent q))%Q.

Definition double_overflows (y : Q) : bool := Qle_bool (two_to 1024) y.

(** The magnitude of [val *= 100]: the format multiplies the double by
    100 before it writes it. *)
Definition times_100 (x : Q) : Q := round_binary64 (Qabs x * inject_Z 100).

(** Hundredths of a percent shown for [x]: the double [x * 100] written
    with two decimals, correctly rounded. *)
Definition percent_hundredths (x : Q) : Z :=
  round_half_even (times_100 x * inject_Z 100).

(** [f"{x:.2%}"] for a finite double [x]: the sign, then the product by
    100 in fixed notation with two decimals, or [inf] when the product
    overflows. *)
Definition format_percent (x : Q) : string :=
  let h := percent_hundredths x in
  (if float_lt x 0 then "-" else "")
    ++ (if double_overflows (times_100 x) then "inf%"
        else decimal (h / 100) ++ "." ++ two_digits (h mod 100) ++ "%").

(** ** [get_recommendations] *)

(** Lines 72-74: the ranked [(index, score)] pairs of a row. *)
Definition ranked (distances : list Q) : list (nat * Q) :=
  sorted (fun x => snd x) true (enumerate distances).

Definition movies_list_of (distances : list Q) (n_recommendations : Z)
  : list (nat * Q) :=
  py_slice (ranked distances) 1 (n_recommendations + 1).

(** The [dict] appended for one pair. *)
Definition recommendation (t : string) (score : Q) : dict :=
  [("title", PyStr t); ("similarity", PyStr (format_percent score))].

(** Lines 76-81: the loop that appends one [dict] per pair. *)
Fixpoint append_recommendations (movies_df : DataFrame)
  (movies_list : list (nat * Q)) (recommended_movies : list dict)
  : res (list dict) :=
  match movies_list with
  | [] => Ok recommended_movies
  | i :: rest =>
      row <- iloc movies_df (fst i) ;;
      append_recommendations movies_df rest
        (recommended_movies ++ [recommendation (title row) (snd i)])
  end.

(** The body of the [try]. *)
Definition get_recommendations_body (movie_title : string)
  (movies_df : DataFrame) (similarity : Matrix) (n_recommendations : Z)
  : res (list dict) :=
  movie_index <- index_0 (rows_with_title movies_df movie_title) ;;
  distances <- getitem similarity movie_index ;;
  let movies_list := movies_list_of distances n_recommendations in
  append_recommendations movies_df movies_list [].

Definition get_recommendations (movie_title : string)
  (movies_df : DataFrame) (similarity : Matrix) (n_recommendations : Z)
  : res (option (list dict)) :=
  try_except_IndexError
    (get_recommendations_body movie_title movies_df similarity
       n_recommendations).

(** The titles of a result, in order. *)
Definition result_titles (recs : list dict) : list (option pyval) :=
  map (fun d => dict_get d "title") recs.

(** ** [load_data] *)

(** What is on disk under one of the two file names. *)
Inductive pickle_file (A : Type) : Type :=
| Missing
| Corrupt
| Pickled (a : A).
Arguments Missing {A}.
Arguments Corrupt {A}.
Arguments Pickled {A} a.

Record Files : Type :=
  { movies_data_pkl : pickle_file DataFrame;
    similarity_pkl : pickle_file Matrix }.

(** [pd.read_pickle(name)] and [pickle.load(open(name, 'rb'))]. *)
Definition read_pickle {A : Type} (f : pickle_file A) : res A :=
  match f with
  | Missing => Raise FileNotFoundError
  | Corrupt => Raise UnpicklingError
  | Pickled a => Ok a
  end.

Definition data_files_not_found : string :=
  "⚠️ Data files not found. Please run the preprocessing notebook first.".

(** The pair that is returned, and the [st.error] messages shown. *)
Definition load_data (fs : Files)
  : (option DataFrame * option Matrix) * list string :=
  try_except_all
    (movies_df <- read_pickle (movies_data_pkl fs) ;;
     similarity <- read_pickle (similarity_pkl fs) ;;
     Ok ((Some movies_df, Some similarity), []))
    ((None, None), [data_files_not_found]).

(** [@st.cache_data]: the first value returned is kept and served again. *)
Definition load_data_cached (cache : option (option DataFrame * option Matrix))
  (fs : Files)
  : (option DataFrame * option Matrix)
    * option (option DataFrame * option Matrix) :=
  match cache with
  | Some v => (v, cache)
  | None => let v := fst (load_data fs) in (v, Some v)
  end.

(** The check the spec asks of the loader: a square matrix of the
    catalog's length. *)
Definition dimensions_match (movies_df : DataFrame) (similarity : Matrix)
  : bool :=
  Nat.eqb (length similarity) (length movies_df)
  && forallb (fun row => Nat.eqb (length row) (length movies_df)) similarity.

(** ** The settings slider of [main] *)

(** [st.slider(min_value, max_value, value, step)]: untouched it gives
    [value]; moved to the [k]-th stop it gives that stop, never past
    [max_value]. *)
Definition slider (min_value max_value value step : Z) (thumb : option nat)
  : Z :=
  match thumb with
  | None => value
  | Some k => Z.min max_value (min_value + Z.of_nat k * step)
  end.

(** Lines 110-116. *)
Definition n_recommendations_setting (thumb : option nat) : Z :=
  slider 3 10 5 1 thumb.

(** ** The title filter of [main] *)

(** A fragment of the regular expressions of the string backend: plain
    characters and the dot, on ASCII text. *)
Inductive re_item : Type :=
| Literal (c : ascii)
| AnyChar.

Definition ascii_in (c : ascii) (s : string) : bool :=
  existsb (Ascii.eqb c) (list_ascii_of_string s).

(** The characters the [re] parser gives a meaning of their own. *)
Definition re_special (c : ascii) : bool := ascii_in c ".\[{()*+?^$|".

(** A byte of ASCII, and a text made of such bytes only. Other bytes are
    parts of the UTF-8 form of a character outside ASCII, for which case
    folding and the dot work on the character, not on the bytes. *)
Definition ascii_char (c : ascii) : bool := Nat.ltb (nat_of_ascii c) 128.

Definition ascii_text (s : string) : bool :=
  forallb ascii_char (list_ascii_of_string s).

(** Patterns of plain ASCII characters and dots, up to the first closing
    parenthesis, which the parser refuses as unbalanced. [None]: the
    pattern uses syntax outside the fragment, or a character outside
    ASCII. *)
Fixpoint re_parse (pat : string) : option (res (list re_item)) :=
  match pat with
  | EmptyString => Some (Ok [])
  | String c rest =>
      if Ascii.eqb c ")" then Some (Raise PatternError)
      else if negb (Ascii.eqb c ".") && re_special c then None
      else if negb (ascii_char c) then None
      else
        match re_parse rest with
        | Some (Ok items) =>
            Some (Ok ((if Ascii.eqb c "." then AnyChar else Literal c)
                        :: items))
        | other => other
        end
  end.

(** The pattern as the backend compiles it, case ignored
    ([re.compile(pat, re.IGNORECASE)] for an object column), on the
    fragment; a repetition sign at the start has nothing to repeat. *)
Definition re_compile (pat : string) : option (res (list re_item)) :=
  match pat with
  | String c _ => if ascii_in c "*+?" then Some (Raise PatternError)
                  else re_parse pat
  | EmptyString => re_parse pat
  end.

(** Lower case of an ASCII letter; other bytes are left as they are. It
    is the case folding of the backend on ASCII text, the only text the
    filter is modelled on. *)
Definition lower (c : ascii) : ascii :=
  let n := nat_of_ascii c in
  if (Nat.leb 65 n && Nat.leb n 90)%bool then ascii_of_nat (n + 32) else c.

(** One item against one character of an ASCII subject. *)
Definition item_matches (i : re_item) (c : ascii) : bool :=
  match i with
  | Literal l => Ascii.eqb (lower l) (lower c)
  | AnyChar => negb (Ascii.eqb c "010")
  end.

Fixpoint match_here (items : list re_item) (s : string) : bool :=
  match items, s with
  | [], _ => true
  | _ :: _, EmptyString => false
  | i :: items', String c s' => item_matches i c && match_here items' s'
  end.

(** [regex.search(s) is not None] *)
Fixpoint re_search (items : list re_item) (s : string) : bool :=
  match_here items s
  || match s with
     | EmptyString => false
     | String _ s' => re_search items s'
     end.

(** [movies_df[movies_df['title'].str.contains(q, case=False,
    na=False)]['title'].values]: [regex] is left at its default, so the
    query is compiled as a pattern, and that before any title is looked
    at. [None] also when a title has a character outside ASCII. *)
Definition filtered_movies (movies_df : DataFrame) (search_query : string)
  : option (res (list string)) :=
  match re_compile search_query with
  | None => None
  | Some (Raise e) => Some (Raise e)
  | Some (Ok items) =>
      if forallb ascii_text (movie_list movies_df)
      then Some (Ok (filter (re_search items) (movie_list movies_df)))
      else None
  end.

(** Lines 136-139: an empty query is falsy, the filter is skipped and the
    whole title list stays on offer. *)
Definition search (movies_df : DataFrame) (search_query : string)
  : option (res (list string)) :=
  match search_query with
  | EmptyString => Some (Ok (movie_list movies_df))
  | _ => filtered_movies movies_df search_query
  end.

(** The spec's words for the same, on ASCII text: [sub] occurs in [s]
    once both are lower-cased. *)
Definition lower_string (s : string) : list ascii :=
  map lower (list_ascii_of_string s).

Definition contains_ci (sub s : string) : Prop :=
  exists pre post : list ascii,
    lower_string s = (pre ++ lower_string sub ++ post)%list.

Fixpoint prefix_ci (sub s : list ascii) : bool :=
  match sub, s with
  | [], _ => true
  | _ :: _, [] => false
  | a :: sub', c :: s' => Ascii.eqb a c && prefix_ci sub' s'
  end.

Fixpoint occurs_ci (sub s : list ascii) : bool :=
  prefix_ci sub s
  || match s with
     | [] => false
     | _ :: s' => occurs_ci sub s'
     end.

Definition ci_substring (sub s : string) : bool :=
  occurs_ci (lower_string sub) (lower_string s).

Definition search_literal (movies_df : DataFrame) (s : string) : list string :=
  filter (ci_substring s) (movie_list movies_df).

(** ** Orders used to state the results *)

Section Orders.
Context {A : Type} (key : A -> Q) (pos : A -> nat).

(** Ascending by key; of two equal keys the later input position first
    (the input of the sort is the reversed list). *)
Definition asc_then_later (a b : A) : Prop :=
  (key a < key b)%Q \/ ((key a == key b)%Q /\ (pos b < pos a)%nat).

(** Descending by key; of two equal keys the earlier position first. *)
Definition desc_then_earlier (a b : A) : Prop :=
  (key b < key a)%Q \/ ((key a == key b)%Q /\ (pos a < pos b)%nat).
End Orders.

(** A pair [p] may stand before [q] in a ranking: its score is higher, or
    the scores tie and its index is the smaller. *)
Definition ranks_before (p q : nat * Q) : Prop :=
  desc_then_earlier (fun x => snd x) (fun x => fst x) p q.

(** Scores do not go up from [p] to [q]. *)
Definition score_ge (p q : nat * Q) : Prop := (snd q <= snd p)%Q.

(** Nor do the percentages shown for them, for scores that are not
    negative. *)
Definition shown_ge (p q : nat * Q) : Prop :=
  (0 <= snd q)%Q -> percent_hundredths (snd q) <= percent_hundredths (snd p).

(** The row of the frame at a position, for stating results. *)
Definition title_at (movies_df : DataFrame) (j : nat) : string :=
  match nth_error movies_df j with
  | Some it => title it
  | None => EmptyString
  end.

(** What the loop appends for the pair [i]. *)
Definition render (movies_df : DataFrame) (i : nat * Q) : dict :=
  recommendation (title_at movies_df (fst i)) (snd i).

(** The field of a result entry that carries the score, under either
    name. *)
Definition score_field (d : dict) : option pyval :=
  match dict_get d "score" with
  | Some v => Some v
  | None => dict_get d "similarity"
  end.

(** A result that is not a list of recommendations: [None] or an
    exception. *)
Definition is_error {A : Type} (r : res (option A)) : bool :=
  match r with
  | Ok (Some _) => false
  | _ => true
  end.

(** The entry [d] is what the call makes of the pair [p] of the row: the
    title of the frame's row at the pair's index, and the pair's score as
    a percentage text. *)
Definition renders (movies_df : DataFrame) (row : list Q) (p : nat * Q)
  (d : dict) : Prop :=
  exists it,
    nth_error row (fst p) = Some (snd p)
    /\ nth_error movies_df (fst p) = Some it
    /\ d = [("title", PyStr (title it));
            ("similarity", PyStr (format_percent (snd p)))].

(** A query without characters that mean something to [re]. *)
Definition plain_query (q : string) : bool :=
  forallb (fun c => negb (re_special c) && negb (Ascii.eqb c ")"))
    (list_ascii_of_string q).

(** ** Sample data *)

(** The catalog and the matrix of the spec's concrete scenario. *)
Definition abc : DataFrame := catalog ["A"; "B"; "C"].

Definition abc_similarity : Matrix :=
  [[1; 8 # 10; 2 # 10]; [8 # 10; 1; 1 # 10]; [2 # 10; 1 # 10; 1]]%Q.

(** The row of the spec's scenario with a tie. *)
Definition tie_row : list Q := [1; 1 # 2; 1 # 2]%Q.

(** Five films; the first two have the same features, hence similarity 1
    to each other. The matrix is symmetric with 1 on the diagonal. *)
Definition twins : DataFrame := catalog ["A"; "B"; "C"; "D"; "E"].

Definition twins_similarity : Matrix :=
  [[1; 1; 3 # 10; 2 # 10; 1 # 10];
   [1; 1; 3 # 10; 2 # 10; 1 # 10];
   [3 # 10; 3 # 10; 1; 5 # 10; 4 # 10];
   [2 # 10; 2 # 10; 5 # 10; 1; 6 # 10];
   [1 # 10; 1 # 10; 4 # 10; 6 # 10; 1]]%Q.

(** A catalog that lists one title twice. *)
Definition remake : DataFrame := catalog ["A"; "B"; "B"].

(** A matrix that does not fit [abc]: one row, and that of four scores. *)
Definition long_row_similarity : Matrix := [[1; 1 # 2; 1 # 2; 9 # 10]]%Q.

Definition one_by_one : Matrix := [[1]]%Q.

(** ** The page: [main] *)

(** [st.selectbox(label, options, index)]: the option the user picked,
    the one at [index] while the box is untouched, [None] when there is
    nothing to pick from. *)
Definition selectbox {A : Type} (options : list A) (index : nat)
  (picked : option nat) : option A :=
  match picked with
  | Some k =>
      match nth_error options k with
      | Some a => Some a
      | None => nth_error options index
      end
  | None => nth_error options index
  end.

(** What the user has done with the widgets when the script runs. *)
Record Visit : Type :=
  { thumb : option nat;
    picked : option nat;
    typed : string;
    picked_result : option nat;
    button : bool }.

(** The elements of the page that depend on the data. Headings, captions
    and the footer are left out; a card stands for its HTML block. *)
Inductive element : Type :=
| st_error (msg : string)
| st_success (msg : string)
| st_metric (label value : string)
| selected_card (movie : option string)
| movie_card (column number : nat) (movie_title similarity : pyval).

Definition movie_not_found : string :=
  "❌ Movie not found in database. Please try another movie.".

Definition found_message (count : nat) : string :=
  "✅ Found " ++ decimal (Z.of_nat count) ++ " recommendations!".

(** [movie[key]] on a [dict]. *)
Definition getitem_key (d : dict) (k : string) : res pyval :=
  match dict_get d k with
  | Some v => Ok v
  | None => Raise KeyError
  end.

(** Lines 177-185: one card per recommendation, in [cols[idx % 2]],
    numbered [idx + 1]. *)
Fixpoint cards_from (idx : nat) (recommendations : list dict)
  : res (list element) :=
  match recommendations with
  | [] => Ok []
  | movie :: rest =>
      t <- getitem_key movie "title" ;;
      s <- getitem_key movie "similarity" ;;
      more <- cards_from (S idx) rest ;;
      Ok (movie_card (idx mod 2) (idx + 1) t s :: more)
  end.

(** Lines 162-187: [if recommendations:] is false for [None] and for the
    empty list. *)
Definition show_recommendations (selected_movie : option string)
  (recommendations : option (list dict)) : res (list element) :=
  match recommendations with
  | Some (movie :: rest) =>
      cards <- cards_from 0 (movie :: rest) ;;
      Ok (st_success (found_message (length (movie :: rest)))
            :: selected_card selected_movie :: cards)
  | _ => Ok [st_error movie_not_found]
  end.

(** Lines 125-145: the dropdown over all titles, replaced by the choice
    among the search results when the query finds any. *)
Definition choose_movie (movies_df : DataFrame) (picked : option nat)
  (search_query : string) (picked_result : option nat)
  : option (res (option string)) :=
  let selected_movie := selectbox (movie_list movies_df) 0 picked in
  match search_query with
  | EmptyString => Some (Ok selected_movie)
  | _ =>
      match filtered_movies movies_df search_query with
      | None => None
      | Some (Raise e) => Some (Raise e)
      | Some (Ok []) => Some (Ok selected_movie)
      | Some (Ok (t :: rest)) =>
          Some (Ok (selectbox (t :: rest) 0 picked_result))
      end
  end.

(** Lines 148-150. A title is truthy unless it is empty. *)
Definition quick_stats (movies_df : DataFrame)
  (selected_movie : option string) : list element :=
  [st_metric "Total Movies" (decimal (Z.of_nat (length movies_df)));
   st_metric "Selected Movie"
     (match selected_movie with
      | Some (String _ _) => "✓"
      | _ => "None"
      end)].

(** Lines 153-160: the call made by the button. With nothing selected
    the title compared is [None], which equals no title, so [.index[0]]
    raises and the call gives [None]. *)
Definition recommendations_for (selected_movie : option string)
  (movies_df : DataFrame) (similarity : Matrix) (n_recommendations : Z)
  : res (option (list dict)) :=
  match selected_movie with
  | Some t => get_recommendations t movies_df similarity n_recommendations
  | None => Ok None
  end.

(** One run of the script on a fresh cache. [None]: the query is a
    pattern outside the fragment of [re_parse], or the filter meets text
    outside ASCII. *)
Definition main (fs : Files) (v : Visit) : option (res (list element)) :=
  let messages := map st_error (snd (load_data fs)) in
  match fst (load_data fs) with
  | (Some movies_df, Some similarity) =>
      let n_recommendations := n_recommendations_setting (thumb v) in
      match choose_movie movies_df (picked v) (typed v) (picked_result v) with
      | None => None
      | Some (Raise e) => Some (Raise e)
      | Some (Ok selected_movie) =>
          let stats := quick_stats movies_df selected_movie in
          if button v then
            Some (recommendations <-
                    recommendations_for selected_movie movies_df similarity
                      n_recommendations ;;
                  shown <- show_recommendations selected_movie
                             recommendations ;;
                  Ok (messages ++ stats ++ shown)%list)
          else Some (Ok (messages ++ stats)%list)
      end
  | _ => Some (Ok messages)
  end.

(** The script runs again on every interaction; the loader is called each
    time with the cache the last run left. *)
Fixpoint reruns (cache : option (option DataFrame * option Matrix))
  (visits : list Files) : list (option DataFrame * option Matrix) :=
  match visits with
  | [] => []
  | fs :: rest =>
      fst (load_data_cached cache fs)
        :: reruns (snd (load_data_cached cache fs)) rest
  end.

(** The query's own score leads its row: no other score is higher, and
    none of an earlier position is equal. *)
Definition leads (i : nat) (row : list Q) : Prop :=
  exists s,
    nth_error row i = Some s
    /\ forall j x,
         nth_error row j = Some x -> j <> i ->
         (x < s)%Q \/ ((x == s)%Q /\ (i < j)%nat).

(** * Properties *)

(** ** Comparison of scores *)

Lemma float_lt_true (a b : Q) : float_lt a b = true <-> (a < b)%Q.
Proof.
  unfold float_lt; rewrite negb_true_iff; split; intros H.
  - apply Qnot_le_lt; intros Hle; apply Qle_bool_iff in Hle; congruence.
  - destruct (Qle_bool b a) eqn:E; [|reflexivity].
    apply Qle_bool_iff in E; exfalso; exact (Qlt_not_le _ _ H E).
Qed.

Lemma float_lt_false (a b : Q) : float_lt a b = false <-> (b <= a)%Q.
Proof.
  unfold float_lt; rewrite negb_false_iff; apply Qle_bool_iff.
Qed.

(** ** Rounding of the percentage *)

Lemma round_half_even_near_floor (x : Q) :
  Qfloor x <= round_half_even x <= Qfloor x + 1.
Proof.
  unfold round_half_even.
  destruct (_ ?= _)%Q; [destruct (Z.even _)| |]; lia.
Qed.

Lemma round_half_even_monotone (x y : Q) :
  (x <= y)%Q -> round_half_even x <= round_half_even y.
Proof.
  intros Hxy; pose proof (Qfloor_resp_le _ _ Hxy) as Hf.
  destruct (Z.eq_dec (Qfloor x) (Qfloor y)) as [E | NE].
  - unfold round_half_even; rewrite <- E.
    destruct (x - inject_Z (Qfloor x) ?= 1 # 2)%Q eqn:Cx;
      destruct (y - inject_Z (Qfloor x) ?= 1 # 2)%Q eqn:Cy;
      try (destruct (Z.even (Qfloor x)); lia); try lia; exfalso;
      repeat match goal with
             | H : (_ ?= _)%Q = Eq |- _ => apply Qeq_alt in H
             | H : (_ ?= _)%Q = Lt |- _ => apply Qlt_alt in H
             | H : (_ ?= _)%Q = Gt |- _ => apply Qgt_alt in H
             end; lra.
  - pose proof (round_half_even_near_floor x);
      pose proof (round_half_even_near_floor y); lia.
Qed.

Lemma round_half_even_close (y : Q) :
  (Qabs (inject_Z (round_half_even y) - y) <= 1 # 2)%Q.
Proof.
  pose proof (Qfloor_le y) as Hlo; pose proof (Qlt_floor y) as Hhi.
  rewrite inject_Z_plus in Hhi; change (inject_Z 1) with 1%Q in Hhi.
  apply Qabs_Qle_condition; unfold round_half_even.
  destruct (y - inject_Z (Qfloor y) ?= 1 # 2)%Q eqn:C;
    [destruct (Z.even (Qfloor y))| |];
    rewrite ?inject_Z_plus; change (inject_Z 1) with 1%Q;
    repeat match goal with
           | H : (_ ?= _)%Q = Eq |- _ => apply Qeq_alt in H
           | H : (_ ?= _)%Q = Lt |- _ => apply Qlt_alt in H
           | H : (_ ?= _)%Q = Gt |- _ => apply Qgt_alt in H
           end; split; lra.
Qed.

Lemma round_half_even_integer (z : Z) : round_half_even (inject_Z z) = z.
Proof.
  unfold round_half_even; rewrite Qfloor_Z.
  replace (inject_Z z - inject_Z z ?= 1 # 2)%Q with Lt; [reflexivity|].
  symmetry; apply Qlt_alt.
  setoid_replace (inject_Z z - inject_Z z)%Q with 0%Q by ring.
  reflexivity.
Qed.

(** ** Powers of two *)

Lemma two_to_pos (e : Z) : (0 < two_to e)%Q.
Proof. apply Qpower_0_lt; reflexivity. Qed.

Lemma two_to_plus (a b : Z) : (two_to (a + b) == two_to a * two_to b)%Q.
Proof. apply Qpower_plus; discriminate. Qed.

Lemma two_to_le (a b : Z) : a <= b -> (two_to a <= two_to b)%Q.
Proof. intros H; apply Qpower_le_compat_l; [exact H | discriminate]. Qed.

Lemma two_to_lt_inv (a b : Z) : (two_to a < two_to b)%Q -> a < b.
Proof. intros H; apply (Qpower_lt_compat_l_inv _ _ _ H); reflexivity. Qed.

Lemma two_to_cancel (e : Z) : (two_to (- e) * two_to e == 1)%Q.
Proof. rewrite <- two_to_plus, Z.add_opp_diag_l; reflexivity. Qed.

Lemma two_to_integer (a : Z) : 0 <= a -> (two_to a == inject_Z (2 ^ a))%Q.
Proof. intros H; symmetry; apply (Zpower_Qpower 2 a H). Qed.

(** ** The exponent of a positive number *)

Lemma Qmult_le_both (a b c d : Q) :
  (0 <= a)%Q -> (0 <= b)%Q -> (a <= c)%Q -> (b <= d)%Q -> (a * b <= c * d)%Q.
Proof.
  intros Ha Hb Hac Hbd.
  apply Qle_trans with (c * b)%Q.
  - apply Qmult_le_compat_r; assumption.
  - rewrite (Qmult_comm c b), (Qmult_comm c d).
    apply Qmult_le_compat_r; [assumption|].
    apply Qle_trans with a; assumption.
Qed.

Lemma floor_log2_spec (q : Q) :
  (0 < q)%Q ->
  (two_to (floor_log2 q) <= q)%Q /\ (q < two_to (floor_log2 q + 1))%Q.
Proof.
  intros Hq; destruct q as [n d].
  assert (Hn : 0 < n) by (unfold Qlt in Hq; simpl in Hq; lia).
  unfold floor_log2; cbn [Qnum Qden].
  set (ln := Z.log2 n); set (ld := Z.log2 (Z.pos d)); set (q := n # d).
  pose proof (Z.log2_spec n Hn) as Hln; fold ln in Hln.
  pose proof (Z.log2_spec (Z.pos d) eq_refl) as Hld; fold ld in Hld.
  pose proof (Z.log2_nonneg n) as Hln0; fold ln in Hln0.
  pose proof (Z.log2_nonneg (Z.pos d)) as Hld0; fold ld in Hld0.
  assert (Hqd : (q * inject_Z (Z.pos d) == inject_Z n)%Q).
  { unfold q, Qeq, inject_Z; simpl; lia. }
  assert (Hn1 : (two_to ln <= inject_Z n)%Q)
    by (rewrite two_to_integer by lia; rewrite <- Zle_Qle; lia).
  assert (Hn2 : (inject_Z n < two_to (ln + 1))%Q)
    by (rewrite two_to_integer by lia; rewrite <- Zlt_Qlt; lia).
  assert (Hd1 : (two_to ld <= inject_Z (Z.pos d))%Q)
    by (rewrite two_to_integer by lia; rewrite <- Zle_Qle; lia).
  assert (Hd2 : (inject_Z (Z.pos d) < two_to (ld + 1))%Q)
    by (rewrite two_to_integer by lia; rewrite <- Zlt_Qlt; lia).
  assert (Hhi : (q < two_to (ln - ld + 1))%Q).
  { apply Qnot_le_lt; intros Hle.
    assert (E : (two_to (ln + 1) == two_to (ln - ld + 1) * two_to ld)%Q)
      by (rewrite <- two_to_plus; f_equiv; lia).
    pose proof (Qmult_le_both _ _ _ _
                  (Qlt_le_weak _ _ (two_to_pos (ln - ld + 1)))
                  (Qlt_le_weak _ _ (two_to_pos ld)) Hle Hd1) as Hp.
    rewrite <- E, Hqd in Hp.
    exact (Qlt_not_le _ _ Hn2 Hp). }
  assert (Hlo : (two_to (ln - ld - 1) <= q)%Q).
  { apply Qnot_lt_le; intros Hlt.
    assert (E : (two_to ln == two_to (ln - ld - 1) * two_to (ld + 1))%Q)
      by (rewrite <- two_to_plus; f_equiv; lia).
    assert (Hp : (q * inject_Z (Z.pos d)
                  < two_to (ln - ld - 1) * two_to (ld + 1))%Q).
    { apply Qle_lt_trans with (q * two_to (ld + 1))%Q.
      - rewrite (Qmult_comm q), (Qmult_comm q).
        apply Qmult_le_compat_r; [apply Qlt_le_weak, Hd2|].
        apply Qlt_le_weak; exact Hq.
      - apply Qmult_lt_compat_r; [apply two_to_pos | exact Hlt]. }
    rewrite <- E, Hqd in Hp.
    exact (Qlt_not_le _ _ Hp Hn1). }
  destruct (Qle_bool (two_to (ln - ld)) q) eqn:E.
  - apply Qle_bool_iff in E; split; assumption.
  - split; [exact Hlo|].
    replace (ln - ld - 1 + 1) with (ln - ld) by lia.
    apply Qnot_le_lt; intros Hle; apply Qle_bool_iff in Hle; congruence.
Qed.

Lemma floor_log2_monotone (q1 q2 : Q) :
  (0 < q1)%Q -> (q1 <= q2)%Q -> floor_log2 q1 <= floor_log2 q2.
Proof.
  intros H1 H12.
  destruct (floor_log2_spec q1 H1) as [Hlo _].
  destruct (floor_log2_spec q2 (Qlt_le_trans _ _ _ H1 H12)) as [_ Hhi].
  pose proof (two_to_lt_inv _ _
                (Qle_lt_trans _ _ _ (Qle_trans _ _ _ Hlo H12) Hhi)).
  lia.
Qed.

(** The significand of a positive number at its own exponent is below
    2^53, and at least 2^52 unless the number is subnormal. *)
Lemma ulp_exponent_spec (q : Q) :
  (0 < q)%Q ->
  (q * two_to (- ulp_exponent q) < two_to 53)%Q
  /\ (-1074 < ulp_exponent q ->
      (two_to 52 <= q * two_to (- ulp_exponent q))%Q).
Proof.
  intros Hq; destruct (floor_log2_spec q Hq) as [Hlo Hhi].
  set (e := ulp_exponent q).
  assert (He : floor_log2 q - 52 <= e) by (unfold e, ulp_exponent; lia).
  pose proof (two_to_pos (- e)) as Hpos.
  split.
  - apply Qlt_le_trans with (two_to (floor_log2 q + 1) * two_to (- e))%Q.
    + apply Qmult_lt_compat_r; assumption.
    + rewrite <- two_to_plus; apply two_to_le; lia.
  - intros Hnorm.
    assert (Ee : e = floor_log2 q - 52) by (unfold e, ulp_exponent in *; lia).
    apply Qle_trans with (two_to (floor_log2 q) * two_to (- e))%Q.
    + rewrite <- two_to_plus; apply two_to_le; lia.
    + apply Qmult_le_compat_r; [exact Hlo | apply Qlt_le_weak, Hpos].
Qed.

Lemma scaled_back (q : Q) (e : Z) :
  (q * two_to (- e) * two_to e == q)%Q.
Proof. rewrite <- Qmult_assoc, two_to_cancel; ring. Qed.

Lemma round_binary64_nonneg (q : Q) : (0 <= round_binary64 q)%Q.
Proof.
  unfold round_binary64; destruct (Qle_bool q 0) eqn:E; [apply Qle_refl|].
  assert (Hq : (0 < q)%Q).
  { apply Qnot_le_lt; intros H; apply Qle_bool_iff in H; congruence. }
  apply Qmult_le_0_compat; [|apply Qlt_le_weak, two_to_pos].
  change 0%Q with (inject_Z 0); rewrite <- Zle_Qle.
  rewrite <- (round_half_even_integer 0); apply round_half_even_monotone.
  apply Qmult_le_0_compat; apply Qlt_le_weak; [exact Hq | apply two_to_pos].
Qed.

(** Rounding to binary64 keeps the order. *)
Lemma round_binary64_monotone (q1 q2 : Q) :
  (q1 <= q2)%Q -> (round_binary64 q1 <= round_binary64 q2)%Q.
Proof.
  intros H12; unfold round_binary64 at 1.
  destruct (Qle_bool q1 0) eqn:E1; [apply round_binary64_nonneg|].
  assert (H1 : (0 < q1)%Q).
  { apply Qnot_le_lt; intros H; apply Qle_bool_iff in H; congruence. }
  assert (H2 : (0 < q2)%Q) by (apply Qlt_le_trans with q1; assumption).
  unfold round_binary64.
  replace (Qle_bool q2 0) with false
    by (symmetry; destruct (Qle_bool q2 0) eqn:E2; [|reflexivity];
        apply Qle_bool_iff in E2; exfalso; exact (Qlt_not_le _ _ H2 E2)).
  set (e1 := ulp_exponent q1); set (e2 := ulp_exponent q2).
  assert (He : e1 <= e2).
  { pose proof (floor_log2_monotone _ _ H1 H12).
    unfold e1, e2, ulp_exponent; lia. }
  destruct (Z.eq_dec e1 e2) as [Heq | Hne].
  - rewrite <- Heq.
    apply Qmult_le_compat_r; [|apply Qlt_le_weak, two_to_pos].
    rewrite <- Zle_Qle; apply round_half_even_monotone.
    apply Qmult_le_compat_r; [exact H12 | apply Qlt_le_weak, two_to_pos].
  - destruct (ulp_exponent_spec q1 H1) as [Hhi _].
    destruct (ulp_exponent_spec q2 H2) as [_ Hlo].
    fold e1 in Hhi; fold e2 in Hlo.
    specialize (Hlo ltac:(unfold e1, ulp_exponent in *; lia)).
    apply Qle_trans with (two_to (e1 + 53)).
    + rewrite two_to_plus, (Qmult_comm (two_to e1)).
      apply Qmult_le_compat_r; [|apply Qlt_le_weak, two_to_pos].
      rewrite (two_to_integer 53) by lia; rewrite <- Zle_Qle.
      rewrite <- (round_half_even_integer (2 ^ 53)).
      apply round_half_even_monotone.
      rewrite <- (two_to_integer 53) by lia; apply Qlt_le_weak, Hhi.
    + apply Qle_trans with (two_to (e2 + 52)); [apply two_to_le; lia|].
      rewrite two_to_plus, (Qmult_comm (two_to e2)).
      apply Qmult_le_compat_r; [|apply Qlt_le_weak, two_to_pos].
      rewrite (two_to_integer 52) by lia; rewrite <- Zle_Qle.
      rewrite <- (round_half_even_integer (2 ^ 52)) at 1.
      apply round_half_even_monotone.
      rewrite <- (two_to_integer 52) by lia; exact Hlo.
Qed.

(** The rounded number is within half a unit in the last place. *)
Lemma round_binary64_close (q : Q) :
  (0 < q)%Q ->
  (Qabs (round_binary64 q - q) <= (1 # 2) * two_to (ulp_exponent q))%Q.
Proof.
  intros Hq; unfold round_binary64.
  replace (Qle_bool q 0) with false
    by (symmetry; destruct (Qle_bool q 0) eqn:E; [|reflexivity];
        apply Qle_bool_iff in E; exfalso; exact (Qlt_not_le _ _ Hq E)).
  set (e := ulp_exponent q); set (m := (q * two_to (- e))%Q).
  assert (E : (inject_Z (round_half_even m) * two_to e - q
               == (inject_Z (round_half_even m) - m) * two_to e)%Q).
  { rewrite <- (scaled_back q e) at 1; fold m; ring. }
  rewrite E, Qabs_Qmult, (Qabs_pos (two_to e))
    by (apply Qlt_le_weak, two_to_pos).
  apply Qmult_le_compat_r;
    [apply round_half_even_close | apply Qlt_le_weak, two_to_pos].
Qed.

Lemma percent_hundredths_monotone (x y : Q) :
  (0 <= x)%Q -> (x <= y)%Q -> percent_hundredths x <= percent_hundredths y.
Proof.
  intros Hx Hxy; apply round_half_even_monotone.
  apply Qmult_le_compat_r; [|discriminate].
  apply round_binary64_monotone.
  rewrite !Qabs_pos by lra.
  apply Qmult_le_compat_r; [exact Hxy | discriminate].
Qed.

Lemma times_100_close (x : Q) :
  (Qabs x <= 1)%Q ->
  (Qabs (times_100 x - Qabs x * inject_Z 100) <= two_to (-47))%Q.
Proof.
  intros Hx; unfold times_100.
  set (q := (Qabs x * inject_Z 100)%Q).
  assert (Hq0 : (0 <= q)%Q)
    by (apply Qmult_le_0_compat; [apply Qabs_nonneg | discriminate]).
  destruct (Qlt_le_dec 0 q) as [Hpos | Hzero].
  - eapply Qle_trans; [apply round_binary64_close, Hpos|].
    destruct (floor_log2_spec q Hpos) as [Hlo _].
    assert (Hq : (q < two_to 7)%Q).
    { apply Qle_lt_trans with (1 * inject_Z 100)%Q; [|reflexivity].
      apply Qmult_le_compat_r; [exact Hx | discriminate]. }
    pose proof (two_to_lt_inv _ _ (Qle_lt_trans _ _ _ Hlo Hq)) as Hfl.
    apply Qle_trans with ((1 # 2) * two_to (-46))%Q; [|apply Qle_refl].
    apply Qmult_le_l; [reflexivity|].
    apply two_to_le; unfold ulp_exponent; lia.
  - assert (Eq0 : (q == 0)%Q) by (apply Qle_antisym; assumption).
    unfold round_binary64.
    replace (Qle_bool q 0) with true
      by (symmetry; apply Qle_bool_iff; exact Hzero).
    rewrite Eq0; discriminate.
Qed.

Lemma score_ge_shown_ge (p q : nat * Q) : score_ge p q -> shown_ge p q.
Proof.
  unfold score_ge, shown_ge; intros Hle Hq.
  apply percent_hundredths_monotone; assumption.
Qed.

(** ** Lists sorted in the strong sense *)

Section StronglySortedFacts.
Context {A : Type}.

Lemma StronglySorted_weaken (R R' : A -> A -> Prop) (l : list A) :
  (forall a b, R a b -> R' a b) ->
  StronglySorted R l -> StronglySorted R' l.
Proof.
  intros HR; induction 1 as [|a l Hs IH Hall]; constructor; auto.
  eapply Forall_impl; [|exact Hall]; auto.
Qed.

Lemma StronglySorted_snoc (R : A -> A -> Prop) (l : list A) (x : A) :
  StronglySorted R l -> Forall (fun y => R y x) l ->
  StronglySorted R (l ++ [x]).
Proof.
  induction 1 as [|a l Hs IH Hall]; intros Hx; simpl.
  - repeat constructor.
  - inversion Hx; subst; constructor; auto.
    apply Forall_app; split; auto.
Qed.

Lemma StronglySorted_rev (R : A -> A -> Prop) (l : list A) :
  StronglySorted R l -> StronglySorted (fun a b => R b a) (rev l).
Proof.
  induction 1 as [|a l Hs IH Hall]; simpl; [constructor|].
  apply StronglySorted_snoc; auto.
  apply Forall_rev; exact Hall.
Qed.

Lemma StronglySorted_skipn (R : A -> A -> Prop) (k : nat) (l : list A) :
  StronglySorted R l -> StronglySorted R (skipn k l).
Proof.
  revert l; induction k as [|k IH]; intros l Hs; [exact Hs|].
  destruct l as [|a l]; [constructor|].
  simpl; apply IH; inversion Hs; assumption.
Qed.

Lemma Forall_firstn (P : A -> Prop) (k : nat) (l : list A) :
  Forall P l -> Forall P (firstn k l).
Proof.
  revert l; induction k as [|k IH]; intros l Hl; [constructor|].
  destruct l as [|a l]; [constructor|].
  inversion Hl; subst; simpl; constructor; auto.
Qed.

Lemma StronglySorted_firstn (R : A -> A -> Prop) (k : nat) (l : list A) :
  StronglySorted R l -> StronglySorted R (firstn k l).
Proof.
  revert l; induction k as [|k IH]; intros l Hs; [constructor|].
  destruct l as [|a l]; [constructor|].
  inversion Hs; subst; simpl; constructor; auto using Forall_firstn.
Qed.
End StronglySortedFacts.

(** ** The stable sort *)

Section Stability.
Context {A : Type} (key : A -> Q) (pos : A -> nat).

Lemma insert_stable_perm (x : A) (l : list A) :
  Permutation (insert_stable key x l) (x :: l).
Proof.
  induction l as [|y l IH]; simpl; [reflexivity|].
  destruct (float_lt (key y) (key x)); [|reflexivity].
  rewrite IH; apply perm_swap.
Qed.

Lemma sort_stable_perm (l : list A) : Permutation (sort_stable key l) l.
Proof.
  induction l as [|x l IH]; simpl; [reflexivity|].
  rewrite insert_stable_perm; constructor; exact IH.
Qed.

Lemma sorted_perm (reverse : bool) (l : list A) :
  Permutation (sorted key reverse l) l.
Proof.
  unfold sorted; destruct reverse; [|apply sort_stable_perm].
  rewrite <- Permutation_rev, sort_stable_perm, <- Permutation_rev.
  reflexivity.
Qed.

Lemma le_later (x z : A) :
  (key x <= key z)%Q -> (pos z < pos x)%nat -> (asc_then_later key pos) x z.
Proof.
  intros Hle Hp; destruct (Qle_lt_or_eq _ _ Hle) as [Hlt | Heq];
    [left | right]; auto.
Qed.

Lemma asc_then_later_le (y z : A) :
  (asc_then_later key pos) y z -> (key y <= key z)%Q.
Proof.
  intros [Hlt | [Heq _]]; [apply Qlt_le_weak; exact Hlt|].
  rewrite Heq; apply Qle_refl.
Qed.

Lemma insert_stable_sorted (x : A) (l : list A) :
  StronglySorted (asc_then_later key pos) l ->
  Forall (fun y => (pos y < pos x)%nat) l ->
  StronglySorted (asc_then_later key pos) (insert_stable key x l).
Proof.
  induction l as [|y l IH]; intros Hs Hp; simpl.
  - repeat constructor.
  - inversion Hs as [|? ? Hs' Hy]; inversion Hp as [|? ? Hpy Hp']; subst.
    destruct (float_lt (key y) (key x)) eqn:E.
    + constructor; [apply IH; assumption|].
      eapply Permutation_Forall;
        [symmetry; apply insert_stable_perm|].
      constructor; [left; apply float_lt_true; exact E | exact Hy].
    + apply float_lt_false in E.
      constructor; [exact Hs|].
      constructor; [apply le_later; assumption|].
      rewrite Forall_forall in Hy, Hp' |- *; intros z Hz.
      apply le_later; [|apply Hp'; exact Hz].
      eapply Qle_trans; [exact E|].
      apply asc_then_later_le; apply Hy; exact Hz.
Qed.

Lemma sort_stable_sorted (l : list A) :
  StronglySorted (fun a b => (pos b < pos a)%nat) l ->
  StronglySorted (asc_then_later key pos) (sort_stable key l).
Proof.
  induction 1 as [|x l Hs IH Hall]; simpl; [constructor|].
  apply insert_stable_sorted; [exact IH|].
  eapply Permutation_Forall; [symmetry; apply sort_stable_perm|].
  exact Hall.
Qed.

(** [sorted(..., reverse=True)] of a list given in position order. *)
Lemma sorted_reverse_stable (l : list A) :
  StronglySorted (fun a b => (pos a < pos b)%nat) l ->
  StronglySorted (desc_then_earlier key pos) (sorted key true l).
Proof.
  intros Hl; unfold sorted.
  apply StronglySorted_weaken
    with (R := fun a b => (asc_then_later key pos) b a).
  - intros a b [Hlt | [Heq Hp]]; [left | right]; auto.
    split; [symmetry; exact Heq | exact Hp].
  - apply StronglySorted_rev, sort_stable_sorted.
    apply (StronglySorted_rev _ _ Hl).
Qed.
End Stability.

(** ** [enumerate] and the ranking of a row *)

Lemma enumerate_from_length (k : nat) (l : list Q) :
  length (enumerate_from k l) = length l.
Proof.
  revert k; induction l as [|d l IH]; intros k; simpl; [reflexivity|].
  rewrite IH; reflexivity.
Qed.

Lemma enumerate_from_In (k : nat) (l : list Q) (j : nat) (s : Q) :
  In (j, s) (enumerate_from k l) <->
  (k <= j)%nat /\ nth_error l (j - k) = Some s.
Proof.
  revert k; induction l as [|d l IH]; intros k; simpl.
  - split; [tauto|]. intros [_ H]; destruct (j - k)%nat; discriminate.
  - rewrite IH; split.
    + intros [Heq | [Hle Hnth]].
      * inversion Heq; subst; split; [lia|].
        rewrite Nat.sub_diag; reflexivity.
      * split; [lia|].
        replace (j - k)%nat with (S (j - S k)) by lia; exact Hnth.
    + intros [Hle Hnth].
      destruct (Nat.eq_dec j k) as [-> | Hne].
      * rewrite Nat.sub_diag in Hnth; simpl in Hnth.
        left; congruence.
      * right; split; [lia|].
        replace (j - k)%nat with (S (j - S k)) in Hnth by lia; exact Hnth.
Qed.

Lemma enumerate_In (l : list Q) (j : nat) (s : Q) :
  In (j, s) (enumerate l) <-> nth_error l j = Some s.
Proof.
  unfold enumerate; rewrite enumerate_from_In, Nat.sub_0_r.
  split; [tauto | split; [lia | assumption]].
Qed.

Lemma enumerate_from_increasing (k : nat) (l : list Q) :
  StronglySorted (fun a b => (fst a < fst b)%nat) (enumerate_from k l).
Proof.
  revert k; induction l as [|d l IH]; intros k; simpl; constructor;
    [apply IH|].
  apply Forall_forall; intros [j s] Hin.
  apply enumerate_from_In in Hin; simpl; lia.
Qed.

Lemma ranked_perm (distances : list Q) :
  Permutation (ranked distances) (enumerate distances).
Proof. apply sorted_perm. Qed.

Lemma ranked_length (distances : list Q) :
  length (ranked distances) = length distances.
Proof.
  rewrite (Permutation_length (ranked_perm distances)).
  apply enumerate_from_length.
Qed.

Lemma ranked_In (distances : list Q) (j : nat) (s : Q) :
  In (j, s) (ranked distances) <-> nth_error distances j = Some s.
Proof.
  rewrite <- enumerate_In; split; apply Permutation_in;
    [|symmetry]; apply ranked_perm.
Qed.

Lemma ranked_stable (distances : list Q) :
  StronglySorted ranks_before (ranked distances).
Proof.
  apply sorted_reverse_stable, enumerate_from_increasing.
Qed.

Lemma ranks_before_score_ge (p q : nat * Q) : ranks_before p q -> score_ge p q.
Proof.
  unfold score_ge; intros [Hlt | [Heq _]]; simpl in *.
  - apply Qlt_le_weak; exact Hlt.
  - rewrite Heq; apply Qle_refl.
Qed.

(** ** Slices *)

Lemma py_slice_sorted {A : Type} (R : A -> A -> Prop) (l : list A)
  (start stop : Z) :
  StronglySorted R l -> StronglySorted R (py_slice l start stop).
Proof.
  intros Hs; unfold py_slice.
  apply StronglySorted_firstn, StronglySorted_skipn, Hs.
Qed.

Lemma py_slice_In {A : Type} (l : list A) (start stop : Z) (x : A) :
  In x (py_slice l start stop) -> In x l.
Proof.
  unfold py_slice; intros H.
  set (k := Z.to_nat (slice_bound (Z.of_nat (length l)) start)) in *.
  match type of H with In _ (firstn ?m _) => set (m' := m) in * end.
  rewrite <- (firstn_skipn k l); apply in_or_app; right.
  rewrite <- (firstn_skipn m' (skipn k l)); apply in_or_app; left; exact H.
Qed.

(** [l[1:n+1]] for a count that is not negative: the head is skipped and
    up to [n] elements follow. *)
Lemma py_slice_skip_head {A : Type} (l : list A) (n : Z) :
  0 <= n -> py_slice l 1 (n + 1) = firstn (Z.to_nat n) (tl l).
Proof.
  intros Hn; unfold py_slice, slice_bound.
  destruct (1 <? 0) eqn:E1; [lia|].
  destruct (n + 1 <? 0) eqn:E2; [lia|].
  destruct l as [|a l]; simpl length.
  - simpl; rewrite !firstn_nil; reflexivity.
  - replace (Z.min 1 (Z.of_nat (S (length l)))) with 1 by lia.
    change (Z.to_nat 1) with 1%nat; simpl skipn; simpl tl.
    destruct (Z_le_gt_dec n (Z.of_nat (length l))) as [Hle | Hgt].
    + f_equal; lia.
    + rewrite !firstn_all2 by lia; reflexivity.
Qed.

(** [l[1:n+1]] for a count below -1 on a list longer than [-n]: the
    stop counts from the end. *)
Lemma py_slice_negative_count {A : Type} (l : list A) (n : Z) :
  n < -1 -> - n < Z.of_nat (length l) ->
  py_slice l 1 (n + 1) = firstn (Z.to_nat (Z.of_nat (length l) + n)) (tl l).
Proof.
  intros Hn Hlen; unfold py_slice, slice_bound.
  destruct (1 <? 0) eqn:E1; [lia|].
  destruct (n + 1 <? 0) eqn:E2; [|lia].
  destruct l as [|a l]; [simpl in Hlen; lia|].
  replace (Z.min 1 (Z.of_nat (length (a :: l)))) with 1
    by (simpl length; lia).
  change (Z.to_nat 1) with 1%nat; simpl skipn; simpl tl.
  f_equal; lia.
Qed.

Lemma py_slice_empty_count {A : Type} (l : list A) (n : Z) :
  n = 0 \/ n = -1 -> py_slice l 1 (n + 1) = [].
Proof.
  intros Hn; unfold py_slice, slice_bound.
  destruct (1 <? 0) eqn:E1; [lia|].
  destruct (n + 1 <? 0) eqn:E2; [lia|].
  replace (Z.to_nat _) with 0%nat by lia; reflexivity.
Qed.

(** ** The loop *)

Lemma iloc_in_range (movies_df : DataFrame) (j : nat) :
  (j < length movies_df)%nat ->
  exists it, nth_error movies_df j = Some it /\ iloc movies_df j = Ok it.
Proof.
  intros Hj; unfold iloc, getitem.
  destruct (nth_error movies_df j) as [it|] eqn:E; [eauto|].
  apply nth_error_None in E; lia.
Qed.

Lemma iloc_out_of_range (movies_df : DataFrame) (j : nat) :
  (length movies_df <= j)%nat -> iloc movies_df j = Raise IndexError.
Proof.
  intros Hj; unfold iloc, getitem.
  apply nth_error_None in Hj; rewrite Hj; reflexivity.
Qed.

Lemma append_recommendations_ok (movies_df : DataFrame)
  (movies_list : list (nat * Q)) (acc : list dict) :
  Forall (fun i => (fst i < length movies_df)%nat) movies_list ->
  append_recommendations movies_df movies_list acc
  = Ok (acc ++ map (render movies_df) movies_list)%list.
Proof.
  revert acc; induction movies_list as [|i rest IH]; intros acc Hall; simpl.
  - rewrite app_nil_r; reflexivity.
  - inversion Hall as [|? ? Hi Hrest]; subst.
    destruct (iloc_in_range _ _ Hi) as [it [Hnth Hloc]].
    rewrite Hloc; simpl; rewrite IH by exact Hrest.
    rewrite <- app_assoc; simpl.
    unfold render at 2, title_at; rewrite Hnth; reflexivity.
Qed.

Lemma append_recommendations_raise (movies_df : DataFrame)
  (movies_list : list (nat * Q)) (acc : list dict) :
  Exists (fun i => (length movies_df <= fst i)%nat) movies_list ->
  append_recommendations movies_df movies_list acc = Raise IndexError.
Proof.
  intros Hex; revert acc.
  induction Hex as [i rest Hi | i rest Hex IH]; intros acc; simpl.
  - rewrite iloc_out_of_range by exact Hi; reflexivity.
  - destruct (iloc movies_df (fst i)) as [it|e] eqn:E; simpl; [apply IH|].
    unfold iloc, getitem in E.
    destruct (nth_error movies_df (fst i)); congruence.
Qed.

(** The loop ends in a list or in an [IndexError], nothing else. *)
Lemma append_recommendations_cases (movies_df : DataFrame)
  (movies_list : list (nat * Q)) (acc : list dict) :
  (Forall (fun i => (fst i < length movies_df)%nat) movies_list /\
   append_recommendations movies_df movies_list acc
   = Ok (acc ++ map (render movies_df) movies_list)%list)
  \/ (Exists (fun i => (length movies_df <= fst i)%nat) movies_list /\
      append_recommendations movies_df movies_list acc = Raise IndexError).
Proof.
  destruct (Forall_Exists_dec (fun i : nat * Q =>
                                 (fst i < length movies_df)%nat)
              (fun i => lt_dec (fst i) (length movies_df)) movies_list)
    as [Hall | Hex].
  - left; split; [exact Hall | apply append_recommendations_ok, Hall].
  - right.
    assert (Hex' : Exists (fun i : nat * Q =>
                             (length movies_df <= fst i)%nat) movies_list).
    { eapply Exists_impl; [|exact Hex]; simpl; intros; lia. }
    split; [exact Hex' | apply append_recommendations_raise, Hex'].
Qed.

(** ** Resolving a title *)

Lemma rows_with_title_none (movies_df : DataFrame) (t : string) :
  ~ In t (movie_list movies_df) -> rows_with_title movies_df t = [].
Proof.
  induction movies_df as [|it df IH]; simpl; intros Hnot; [reflexivity|].
  destruct (String.eqb (title it) t) eqn:E.
  - apply String.eqb_eq in E; tauto.
  - apply IH; tauto.
Qed.

Lemma rows_with_title_first (pre post : DataFrame) (it : Item) (t : string) :
  title it = t -> ~ In t (movie_list pre) ->
  rows_with_title (pre ++ it :: post)%list t = it :: rows_with_title post t.
Proof.
  intros Ht Hpre; unfold rows_with_title; rewrite filter_app.
  fold (rows_with_title pre t); rewrite rows_with_title_none by exact Hpre.
  simpl; rewrite Ht, String.eqb_refl; reflexivity.
Qed.

Lemma first_match_exists (movies_df : DataFrame) (t : string) :
  In t (movie_list movies_df) ->
  exists pre it post,
    movies_df = (pre ++ it :: post)%list /\ title it = t
    /\ ~ In t (movie_list pre).
Proof.
  induction movies_df as [|a df IH]; simpl; [tauto|]; intros Hin.
  destruct (string_dec (title a) t) as [Heq | Hne].
  - exists [], a, df; simpl; tauto.
  - destruct IH as (pre & it & post & Hdf & Ht & Hpre); [tauto|].
    exists (a :: pre), it, post; subst df; simpl; repeat split; tauto.
Qed.

Lemma rows_with_title_In (movies_df : DataFrame) (t : string) :
  rows_with_title movies_df t <> [] <-> In t (movie_list movies_df).
Proof.
  split.
  - intros Hne.
    destruct (in_dec string_dec t (movie_list movies_df)) as [Hin | Hnot];
      [exact Hin|].
    exfalso; apply Hne, rows_with_title_none, Hnot.
  - intros Hin Hnil.
    destruct (first_match_exists _ _ Hin) as (pre & it & post & -> & Ht & Hpre).
    rewrite rows_with_title_first in Hnil by assumption; discriminate.
Qed.

Lemma labels_from_split (k : nat) (pre post : DataFrame) (it : Item) :
  labels_from k (pre ++ it :: post)%list = true -> index it = (k + length pre)%nat.
Proof.
  revert k; induction pre as [|a pre IH]; intros k; simpl; intros H;
    apply andb_prop in H; destruct H as [H1 H2].
  - apply Nat.eqb_eq in H1; lia.
  - rewrite (IH _ H2); lia.
Qed.

(** Under the Catalog invariant the label found is a position of the
    frame, the lowest one that carries the title. *)
Lemma resolve_position (movies_df : DataFrame) (t : string) :
  range_index movies_df = true -> In t (movie_list movies_df) ->
  exists i,
    index_0 (rows_with_title movies_df t) = Ok i
    /\ (i < length movies_df)%nat
    /\ title_at movies_df i = t
    /\ forall j, (j < i)%nat -> title_at movies_df j <> t.
Proof.
  intros Hidx Hin.
  destruct (first_match_exists _ _ Hin) as (pre & it & post & -> & Ht & Hpre).
  exists (length pre).
  rewrite rows_with_title_first by assumption; simpl.
  rewrite (labels_from_split 0 _ _ _ Hidx); simpl.
  repeat split.
  - rewrite length_app; simpl; lia.
  - unfold title_at; rewrite nth_error_app2, Nat.sub_diag by lia.
    simpl; exact Ht.
  - intros j Hj Heq; apply Hpre; unfold title_at in Heq.
    rewrite nth_error_app1 in Heq by exact Hj.
    destruct (nth_error pre j) as [a|] eqn:E.
    + rewrite <- Heq; apply in_map, (nth_error_In _ _ E).
    + apply nth_error_None in E; lia.
Qed.

(** ** Consistent dimensions *)

Lemma dimensions_match_row (movies_df : DataFrame) (similarity : Matrix)
  (i : nat) :
  dimensions_match movies_df similarity = true ->
  (i < length movies_df)%nat ->
  exists row,
    nth_error similarity i = Some row /\ length row = length movies_df.
Proof.
  unfold dimensions_match; intros H Hi.
  apply andb_prop in H; destruct H as [Hrows Hcols].
  apply Nat.eqb_eq in Hrows.
  destruct (nth_error similarity i) as [row|] eqn:E.
  - exists row; split; [reflexivity|].
    rewrite forallb_forall in Hcols.
    apply Nat.eqb_eq, Hcols, (nth_error_In _ _ E).
  - apply nth_error_None in E; lia.
Qed.

Lemma movies_list_in_range (movies_df : DataFrame) (row : list Q) (n : Z) :
  length row = length movies_df ->
  Forall (fun i => (fst i < length movies_df)%nat) (movies_list_of row n).
Proof.
  intros Hlen; apply Forall_forall; intros [j s] Hin; simpl.
  apply py_slice_In, ranked_In in Hin.
  rewrite <- Hlen; apply nth_error_Some; congruence.
Qed.

Lemma movies_list_scores (row : list Q) (n : Z) (j : nat) (s : Q) :
  In (j, s) (movies_list_of row n) -> nth_error row j = Some s.
Proof. intros Hin; apply py_slice_In, ranked_In in Hin; exact Hin. Qed.

(** ** The shape of a call *)

(** Once the title has given a label and the label a row, the call is the
    loop over the slice of that row's ranking. *)
Lemma get_recommendations_row (movie_title : string) (movies_df : DataFrame)
  (similarity : Matrix) (n : Z) (i : nat) (row : list Q) :
  index_0 (rows_with_title movies_df movie_title) = Ok i ->
  nth_error similarity i = Some row ->
  get_recommendations movie_title movies_df similarity n
  = try_except_IndexError
      (append_recommendations movies_df (movies_list_of row n) []).
Proof.
  intros Hi Hrow; unfold get_recommendations, get_recommendations_body.
  rewrite Hi; simpl; unfold getitem; rewrite Hrow; reflexivity.
Qed.

(** A title of the catalog and data of matching dimensions: the call
    returns the rendered slice, whatever the count. *)
Lemma get_recommendations_found (movie_title : string) (movies_df : DataFrame)
  (similarity : Matrix) :
  In movie_title (movie_list movies_df) ->
  range_index movies_df = true ->
  dimensions_match movies_df similarity = true ->
  exists i row,
    index_0 (rows_with_title movies_df movie_title) = Ok i
    /\ nth_error similarity i = Some row
    /\ length row = length movies_df
    /\ forall n,
        get_recommendations movie_title movies_df similarity n
        = Ok (Some (map (render movies_df) (movies_list_of row n))).
Proof.
  intros Hin Hidx Hdim.
  destruct (resolve_position _ _ Hidx Hin) as (i & Hi & Hlt & _).
  destruct (dimensions_match_row _ _ _ Hdim Hlt) as (row & Hrow & Hlen).
  exists i, row; repeat split; try assumption.
  intros n; rewrite (get_recommendations_row _ _ _ _ _ _ Hi Hrow).
  rewrite append_recommendations_ok by (apply movies_list_in_range, Hlen).
  reflexivity.
Qed.

(** * The statements of the specification *)

(** ** Self-exclusion *)

(** C1. The query is not excluded by identity: the call drops the head of
    the ranking, whatever it is. In [twins] the film "A" ties with the
    query "B" at score 1 and has the smaller index, so the ranking of
    B's row starts with A, "A" is the entry dropped and "B" itself heads
    its own recommendations. The data is well formed: labels are
    positions, the matrix is 5 by 5, and 3 is a count the slider
    offers. *)
Theorem query_returned_on_top_tie :
  range_index twins = true
  /\ dimensions_match twins twins_similarity = true
  /\ n_recommendations_setting (Some 0%nat) = 3
  /\ ranked [1; 1; 3 # 10; 2 # 10; 1 # 10]%Q
     = [(0%nat, 1); (1%nat, 1); (2%nat, 3 # 10); (3%nat, 2 # 10);
        (4%nat, 1 # 10)]%Q
  /\ get_recommendations "B" twins twins_similarity 3
     = Ok (Some [recommendation "B" 1;
                 recommendation "C" (3 # 10);
                 recommendation "D" (2 # 10)])
  /\ result_titles [recommendation "B" 1;
                    recommendation "C" (3 # 10);
                    recommendation "D" (2 # 10)]
     = [Some (PyStr "B"); Some (PyStr "C"); Some (PyStr "D")].
Proof. repeat split; reflexivity. Qed.

(** ** Ranking *)

(** C2. The pairs of a row are ranked by score, highest first, and pairs
    of equal score keep their ascending index order: the ranking is a
    rearrangement of the enumerated row in which every pair may stand
    before every later one, and so is the slice the call renders. With
    catalog A, B, C and the row [1.0, 0.5, 0.5] for A, a request for two
    gives B and then C. *)
Theorem ranking_is_stable_descending (distances : list Q) (n : Z)
  (other_rows : Matrix) :
  Permutation (ranked distances) (enumerate distances)
  /\ StronglySorted ranks_before (ranked distances)
  /\ StronglySorted ranks_before (movies_list_of distances n)
  /\ get_recommendations "A" abc (tie_row :: other_rows) 2
     = Ok (Some [recommendation "B" (1 # 2); recommendation "C" (1 # 2)]).
Proof.
  split; [apply ranked_perm|].
  split; [apply ranked_stable|].
  split; [apply py_slice_sorted, ranked_stable | reflexivity].
Qed.

(** ** Length and order of a result *)

Lemma movies_list_length (row : list Q) (n : Z) :
  0 <= n ->
  length (movies_list_of row n) = Nat.min (Z.to_nat n) (length row - 1).
Proof.
  intros Hn; unfold movies_list_of.
  rewrite py_slice_skip_head by exact Hn.
  rewrite length_firstn; f_equal.
  rewrite <- (ranked_length row).
  destruct (ranked row); simpl; lia.
Qed.



(** ** Resolution of the title *)

(** C4. The title is resolved by exact string equality to the first row
    that carries it: with no such row the call returns [None]; otherwise
    the label of the first such row is taken, which under the Catalog
    invariant is the lowest matching position, and the call works on the
    similarity row of that label. Case matters: "batman" does not find
    "Batman". *)
Theorem title_resolves_to_first_match (movies_df : DataFrame)
  (similarity : Matrix) (movie_title : string) (n : Z) :
  (~ In movie_title (movie_list movies_df) ->
   get_recommendations movie_title movies_df similarity n = Ok None)
  /\ (forall pre it post,
        movies_df = (pre ++ it :: post)%list ->
        title it = movie_title ->
        ~ In movie_title (movie_list pre) ->
        index_0 (rows_with_title movies_df movie_title) = Ok (index it)
        /\ (range_index movies_df = true -> index it = length pre)
        /\ get_recommendations movie_title movies_df similarity n
           = try_except_IndexError
               (distances <- getitem similarity (index it) ;;
                append_recommendations movies_df
                  (movies_list_of distances n) []))
  /\ get_recommendations "batman" (catalog ["Batman"]) similarity n = Ok None.
Proof.
  split; [|split].
  - intros Hnot; unfold get_recommendations, get_recommendations_body.
    rewrite rows_with_title_none by exact Hnot; reflexivity.
  - intros pre it post -> Ht Hpre.
    assert (Hi : index_0 (rows_with_title (pre ++ it :: post)%list movie_title)
                 = Ok (index it))
      by (rewrite rows_with_title_first by assumption; reflexivity).
    split; [exact Hi|]; split.
    + intros Hidx; apply (labels_from_split 0 _ _ _ Hidx).
    + unfold get_recommendations, get_recommendations_body.
      rewrite Hi; reflexivity.
  - reflexivity.
Qed.

Lemma title_resolves_to_first_match_witness :
  get_recommendations "Z" abc abc_similarity 2 = Ok None
  /\ index_0 (rows_with_title remake "B") = Ok 1%nat
  /\ 1%nat = length [{| index := 0; title := "A" |}].
Proof.
  split.
  - apply (proj1 (title_resolves_to_first_match abc abc_similarity "Z" 2)).
    simpl; intros [H | [H | [H | H]]]; try discriminate; exact H.
  - destruct (proj1 (proj2 (title_resolves_to_first_match
                              remake abc_similarity "B" 2))
                [{| index := 0; title := "A" |}]
                {| index := 1; title := "B" |}
                [{| index := 2; title := "B" |}]
                eq_refl eq_refl) as (Hlabel & Hpos & _).
    + simpl; intros [H | H]; try discriminate; exact H.
    + split; [exact Hlabel | apply Hpos; reflexivity].
Defined.

(** ** Search *)

Lemma prefix_ci_spec (sub s : list ascii) :
  prefix_ci sub s = true <-> exists post, s = (sub ++ post)%list.
Proof.
  revert s; induction sub as [|a sub IH]; intros s; simpl.
  - split; [intros _; exists s; reflexivity | reflexivity].
  - destruct s as [|c s].
    + split; [discriminate | intros [post H]; discriminate].
    + rewrite andb_true_iff, Ascii.eqb_eq, IH; split.
      * intros [-> [post ->]]; exists post; reflexivity.
      * intros [post H]; inversion H; subst; split; [reflexivity|].
        exists post; reflexivity.
Qed.

Lemma occurs_ci_spec (sub s : list ascii) :
  occurs_ci sub s = true <-> exists pre post, s = (pre ++ sub ++ post)%list.
Proof.
  induction s as [|c s IH]; simpl; rewrite orb_true_iff, prefix_ci_spec.
  - split.
    + intros [[post H] | H]; [|discriminate].
      exists [], post; exact H.
    + intros (pre & post & H); left.
      destruct pre; [exists post; exact H | discriminate].
  - rewrite IH; split.
    + intros [[post H] | (pre & post & H)].
      * exists [], post; exact H.
      * exists (c :: pre), post; rewrite H; reflexivity.
    + intros (pre & post & H).
      destruct pre as [|a pre]; simpl in H.
      * left; exists post; exact H.
      * right; inversion H; subst; exists pre, post; reflexivity.
Qed.

(** The decision procedure says what the spec's words say. *)
Lemma ci_substring_spec (sub s : string) :
  ci_substring sub s = true <-> contains_ci sub s.
Proof. apply occurs_ci_spec. Qed.

Lemma match_here_literals (l : list ascii) (s : string) :
  match_here (map Literal l) s = prefix_ci (map lower l) (lower_string s).
Proof.
  revert s; induction l as [|a l IH]; intros s; simpl; [reflexivity|].
  destruct s as [|c s]; simpl; [reflexivity|].
  rewrite IH; reflexivity.
Qed.

Lemma re_search_literals (l : list ascii) (s : string) :
  re_search (map Literal l) s = occurs_ci (map lower l) (lower_string s).
Proof.
  induction s as [|c s IH]; simpl; rewrite match_here_literals;
    [reflexivity|].
  rewrite IH; reflexivity.
Qed.

Lemma ascii_text_cons (c : ascii) (q : string) :
  ascii_text (String c q) = ascii_char c && ascii_text q.
Proof. reflexivity. Qed.

Lemma re_parse_plain (q : string) :
  plain_query q = true ->
  re_parse q
  = if ascii_text q
    then Some (Ok (map Literal (list_ascii_of_string q)))
    else None.
Proof.
  unfold plain_query; induction q as [|c q IH]; [reflexivity|].
  cbn [list_ascii_of_string forallb re_parse map].
  intros H; apply andb_prop in H; destruct H as [Hc Hq].
  apply andb_prop in Hc; destruct Hc as [Hs Hp].
  apply negb_true_iff in Hs, Hp.
  rewrite Hp, Hs, andb_false_r, (IH Hq), ascii_text_cons.
  destruct (ascii_char c); cbn [negb andb]; [|reflexivity].
  destruct (ascii_text q); [|reflexivity].
  destruct (Ascii.eqb c ".") eqn:E; [|reflexivity].
  apply Ascii.eqb_eq in E; subst c; discriminate.
Qed.

Lemma plain_query_no_repetition (c : ascii) (q : string) :
  plain_query (String c q) = true -> ascii_in c "*+?" = false.
Proof.
  unfold plain_query; cbn [list_ascii_of_string forallb]; intros Hq.
  apply andb_prop in Hq; destruct Hq as [Hc _].
  apply andb_prop in Hc; destruct Hc as [Hs _].
  apply negb_true_iff in Hs.
  destruct (ascii_in c "*+?") eqn:E; [|reflexivity].
  unfold ascii_in in E; simpl in E.
  repeat (apply orb_prop in E; destruct E as [E | E];
          [apply Ascii.eqb_eq in E; subst c; discriminate|]).
  discriminate.
Qed.

Lemma search_literal_empty (movies_df : DataFrame) :
  search_literal movies_df EmptyString = movie_list movies_df.
Proof.
  unfold search_literal.
  induction (movie_list movies_df) as [|t l IH]; simpl; [reflexivity|].
  unfold ci_substring at 1; simpl.
  destruct (lower_string t); simpl; rewrite IH; reflexivity.
Qed.

(** What the search gives for a query of plain characters: the substring
    search of the spec on ASCII text, no answer otherwise; the empty
    query leaves the whole list. *)
Lemma search_plain_general (movies_df : DataFrame) (q : string) :
  plain_query q = true ->
  search movies_df q
  = match q with
    | EmptyString => Some (Ok (movie_list movies_df))
    | _ =>
        if ascii_text q && forallb ascii_text (movie_list movies_df)
        then Some (Ok (search_literal movies_df q))
        else None
    end.
Proof.
  intros Hq; destruct q as [|c q]; [reflexivity|].
  unfold search, filtered_movies, re_compile.
  rewrite (plain_query_no_repetition _ _ Hq), (re_parse_plain _ Hq).
  destruct (ascii_text (String c q)); [|reflexivity].
  cbn [andb]; destruct (forallb ascii_text (movie_list movies_df));
    [|reflexivity].
  unfold search_literal; do 2 f_equal; apply filter_ext; intros t.
  apply re_search_literals.
Qed.

(** On ASCII text and a query of plain characters the filter is the
    substring search of the spec; so is [search], the empty query
    included. *)
Lemma search_plain_query (movies_df : DataFrame) (q : string) :
  plain_query q = true ->
  ascii_text q = true ->
  forallb ascii_text (movie_list movies_df) = true ->
  search movies_df q = Some (Ok (search_literal movies_df q)).
Proof.
  intros Hq Ha Ht; rewrite (search_plain_general _ _ Hq), Ha, Ht.
  destruct q; [rewrite search_literal_empty|]; reflexivity.
Qed.

Lemma ascii_char_lower (c : ascii) : ascii_char (lower c) = ascii_char c.
Proof.
  unfold lower.
  destruct (Nat.leb 65 (nat_of_ascii c) && Nat.leb (nat_of_ascii c) 90)%bool
    eqn:E; [|reflexivity].
  apply andb_prop in E; destruct E as [E1 E2].
  apply Nat.leb_le in E1, E2.
  unfold ascii_char; rewrite nat_ascii_embedding by lia.
  transitivity true; [|symmetry]; apply Nat.ltb_lt; lia.
Qed.

Lemma ascii_text_lower (q : string) :
  ascii_text q = forallb ascii_char (lower_string q).
Proof.
  unfold ascii_text, lower_string.
  induction (list_ascii_of_string q) as [|c l IH]; simpl; [reflexivity|].
  rewrite ascii_char_lower, IH; reflexivity.
Qed.

(** C5. The query is compiled as a regular expression, not taken as a
    literal substring: "." returns every title of [abc] although none
    contains a dot, and "*" makes the filter raise the pattern error of
    the backend. Queries of plain characters are substring searches
    ([search_plain_query]): "b" finds "B", the empty query leaves the
    whole list, "z" finds nothing. *)
Theorem search_compiles_query_as_pattern :
  search abc "." = Some (Ok ["A"; "B"; "C"])
  /\ search_literal abc "." = []
  /\ map (ci_substring ".") (movie_list abc) = [false; false; false]
  /\ search abc "*" = Some (Raise PatternError)
  /\ search abc "b" = Some (Ok ["B"])
  /\ search abc "" = Some (Ok ["A"; "B"; "C"])
  /\ search abc "z" = Some (Ok []).
Proof.
  repeat split; reflexivity.
Qed.

(** ** The count *)

(** C6, as stated, fails: 2 and 11 lie outside [3, 10], yet the call
    looks the title up and returns recommendations. *)
Lemma count_outside_range_is_served :
  (2 < 3 \/ 10 < 2) /\ (11 < 3 \/ 10 < 11)
  /\ get_recommendations "A" abc abc_similarity 2
     = Ok (Some [recommendation "B" (8 # 10); recommendation "C" (2 # 10)])
  /\ is_error (get_recommendations "A" abc abc_similarity 2) = false
  /\ is_error (get_recommendations "A" abc abc_similarity 11) = false.
Proof.
  split; [left; lia|]; split; [right; lia|].
  repeat split; reflexivity.
Qed.

Lemma slider_in_range (min_value max_value value step : Z)
  (thumb : option nat) :
  min_value <= value <= max_value -> 0 <= step ->
  min_value <= slider min_value max_value value step thumb <= max_value.
Proof.
  intros Hv Hs; destruct thumb as [k|]; simpl; [|exact Hv].
  assert (0 <= Z.of_nat k * step) by (apply Z.mul_nonneg_nonneg; lia).
  lia.
Qed.

(** C6, amended. The range [3, 10] is a property of the settings slider
    alone: every value it yields lies in the range. [get_recommendations]
    checks no count: for a title of the catalog and data of matching
    dimensions it returns a list for every integer count, and for an
    unknown title the outcome is the [None] of the lookup, whatever the
    count. *)
Theorem count_range_is_the_sliders (thumb : option nat)
  (movies_df : DataFrame) (similarity : Matrix) (movie_title : string)
  (n : Z) :
  3 <= n_recommendations_setting thumb <= 10
  /\ (In movie_title (movie_list movies_df) ->
      range_index movies_df = true ->
      dimensions_match movies_df similarity = true ->
      is_error (get_recommendations movie_title movies_df similarity n)
      = false)
  /\ (~ In movie_title (movie_list movies_df) ->
      get_recommendations movie_title movies_df similarity n = Ok None).
Proof.
  split; [apply slider_in_range; lia|]; split.
  - intros Hin Hidx Hdim.
    destruct (get_recommendations_found _ _ _ Hin Hidx Hdim)
      as (i & row & _ & _ & _ & Hcall).
    rewrite Hcall; reflexivity.
  - intros Hnot; unfold get_recommendations, get_recommendations_body.
    rewrite rows_with_title_none by exact Hnot; reflexivity.
Qed.

Lemma count_range_is_the_sliders_witness :
  3 <= n_recommendations_setting (Some 20%nat) <= 10
  /\ is_error (get_recommendations "A" abc abc_similarity (-7)) = false
  /\ get_recommendations "Z" abc abc_similarity 0 = Ok None.
Proof.
  split; [|split].
  - apply (proj1 (count_range_is_the_sliders (Some 20%nat) abc
                    abc_similarity "A" (-7))).
  - apply (proj1 (proj2 (count_range_is_the_sliders None abc
                           abc_similarity "A" (-7)))).
    + simpl; auto.
    + reflexivity.
    + reflexivity.
  - apply (proj2 (proj2 (count_range_is_the_sliders None abc
                           abc_similarity "Z" 0))).
    simpl; intros [H | [H | [H | H]]]; try discriminate; exact H.
Defined.

(** ** Loading *)

(** C7, as stated, fails: a catalog of three and a matrix of one row are
    both returned, with no data error. *)
Lemma load_data_returns_mismatched_stores :
  dimensions_match abc one_by_one = false
  /\ load_data {| movies_data_pkl := Pickled abc;
                  similarity_pkl := Pickled one_by_one |}
     = ((Some abc, Some one_by_one), []).
Proof. split; reflexivity. Qed.

(** C7, amended. [load_data] reads both artifacts. If either is missing
    or unreadable it shows the message and returns [(None, None)];
    otherwise it returns both as read, whatever their dimensions: no
    check is made. A caller sees both stores or neither, and the cached
    loader serves the first outcome again, whatever the files are by
    then. *)
Theorem load_data_both_or_neither (fs fs' : Files) :
  load_data fs
  = match movies_data_pkl fs, similarity_pkl fs with
    | Pickled movies_df, Pickled similarity =>
        ((Some movies_df, Some similarity), [])
    | _, _ => ((None, None), [data_files_not_found])
    end
  /\ (fst (load_data fs) = (None, None)
      \/ exists movies_df similarity,
           movies_data_pkl fs = Pickled movies_df
           /\ similarity_pkl fs = Pickled similarity
           /\ load_data fs = ((Some movies_df, Some similarity), []))
  /\ fst (load_data_cached (snd (load_data_cached None fs)) fs')
     = fst (load_data fs).
Proof.
  split; [|split].
  - unfold load_data.
    destruct (movies_data_pkl fs), (similarity_pkl fs); reflexivity.
  - unfold load_data.
    destruct (movies_data_pkl fs) as [| |df], (similarity_pkl fs) as [| |sim];
      simpl; auto.
    right; exists df, sim; auto.
  - reflexivity.
Qed.

(** ** The entries of a result *)

(** C8, as stated, fails: the entry for B has no key "score", and what it
    holds under "similarity" is the text "80.00%", not the number 0.8. *)
Lemma result_score_is_percentage_text :
  get_recommendations "A" abc abc_similarity 1
  = Ok (Some [[("title", PyStr "B"); ("similarity", PyStr "80.00%")]])
  /\ dict_get [("title", PyStr "B"); ("similarity", PyStr "80.00%")] "score"
     = None
  /\ score_field [("title", PyStr "B"); ("similarity", PyStr "80.00%")]
     = Some (PyStr "80.00%")
  /\ forall x : Q,
       score_field [("title", PyStr "B"); ("similarity", PyStr "80.00%")]
       <> Some (PyFloat x).
Proof.
  repeat split; try reflexivity.
  intros x H; discriminate H.
Qed.

Lemma render_entries (movies_df : DataFrame) (row : list Q)
  (movies_list : list (nat * Q)) :
  (forall p, In p movies_list -> nth_error row (fst p) = Some (snd p)) ->
  Forall (fun i => (fst i < length movies_df)%nat) movies_list ->
  Forall2 (renders movies_df row) movies_list
    (map (render movies_df) movies_list).
Proof.
  induction movies_list as [|p rest IH]; intros Hrow Hall; simpl;
    constructor.
  - inversion Hall as [|? ? Hp _]; subst.
    destruct (iloc_in_range _ _ Hp) as [it [Hnth _]].
    exists it; repeat split; [apply Hrow; left; reflexivity | exact Hnth|].
    unfold render, title_at; rewrite Hnth; reflexivity.
  - apply IH; [intros q Hq; apply Hrow; right; exact Hq|].
    inversion Hall; assumption.
Qed.

(** C8, amended. Every entry of a successful result is a [dict] with the
    keys "title" and "similarity": for the pair [(j, S[i][j])] of the
    slice it holds the title of row [j] of the catalog and the score
    written as a percentage with two decimals, in the order of the
    slice. *)
Theorem result_entries_title_and_percentage (movies_df : DataFrame)
  (similarity : Matrix) (movie_title : string) (n : Z) (recs : list dict) :
  get_recommendations movie_title movies_df similarity n = Ok (Some recs) ->
  exists (i : nat) (row : list Q),
    index_0 (rows_with_title movies_df movie_title) = Ok i
    /\ nth_error similarity i = Some row
    /\ Forall2 (renders movies_df row) (movies_list_of row n) recs.
Proof.
  unfold get_recommendations, get_recommendations_body; intros H.
  destruct (index_0 (rows_with_title movies_df movie_title)) as [i|e] eqn:Hi;
    simpl in H; [|destruct e; discriminate].
  unfold getitem in H.
  destruct (nth_error similarity i) as [row|] eqn:Hrow; simpl in H;
    [|discriminate].
  exists i, row; split; [reflexivity|]; split; [exact Hrow|].
  destruct (append_recommendations_cases movies_df (movies_list_of row n) [])
    as [[Hall Hok] | [_ Hraise]]; rewrite ?Hok, ?Hraise in H; simpl in H;
    [|discriminate].
  inversion H; subst recs.
  apply render_entries; [|exact Hall].
  intros [j s] Hin; apply (movies_list_scores _ _ _ _ Hin).
Qed.

Lemma result_entries_title_and_percentage_witness :
  exists (i : nat) (row : list Q),
    index_0 (rows_with_title abc "A") = Ok i
    /\ nth_error abc_similarity i = Some row
    /\ Forall2 (renders abc row) (movies_list_of row 2)
         [recommendation "B" (8 # 10); recommendation "C" (2 # 10)].
Proof.
  apply (result_entries_title_and_percentage abc abc_similarity "A" 2).
  reflexivity.
Defined.

(** ** Counts the slider does not offer *)

Lemma get_recommendations_fitting_row (movie_title : string)
  (movies_df : DataFrame) (similarity : Matrix) (n : Z) (i : nat)
  (row : list Q) :
  index_0 (rows_with_title movies_df movie_title) = Ok i ->
  nth_error similarity i = Some row ->
  length row = length movies_df ->
  get_recommendations movie_title movies_df similarity n
  = Ok (Some (map (render movies_df) (movies_list_of row n))).
Proof.
  intros Hi Hrow Hlen.
  rewrite (get_recommendations_row _ _ _ _ _ _ Hi Hrow).
  rewrite append_recommendations_ok by (apply movies_list_in_range, Hlen).
  reflexivity.
Qed.

(** C9. [get_recommendations] does not check the count. When the title
    gives a label, the label a row, and the row is as long as the
    catalog (size M): no count makes the call fail; the counts 0 and -1
    give the empty list; a count [n < -1] with [M > -n] gives the
    [M + n] entries that follow the head of the ranking (positions 1 to
    [M + n]), a list that is not empty. *)
Theorem count_is_not_checked (movies_df : DataFrame) (similarity : Matrix)
  (movie_title : string) (i : nat) (row : list Q) :
  index_0 (rows_with_title movies_df movie_title) = Ok i ->
  nth_error similarity i = Some row ->
  length row = length movies_df ->
  (forall n,
     is_error (get_recommendations movie_title movies_df similarity n)
     = false)
  /\ get_recommendations movie_title movies_df similarity 0 = Ok (Some [])
  /\ get_recommendations movie_title movies_df similarity (-1) = Ok (Some [])
  /\ forall n,
       n < -1 -> - n < Z.of_nat (length movies_df) ->
       exists recs,
         get_recommendations movie_title movies_df similarity n
         = Ok (Some recs)
         /\ recs = map (render movies_df)
                     (firstn (Z.to_nat (Z.of_nat (length movies_df) + n))
                        (tl (ranked row)))
         /\ length recs = Z.to_nat (Z.of_nat (length movies_df) + n)
         /\ recs <> [].
Proof.
  intros Hi Hrow Hlen.
  pose proof (fun n => get_recommendations_fitting_row _ _ _ n _ _
                        Hi Hrow Hlen) as Hcall.
  split; [intros n; rewrite Hcall; reflexivity|].
  split; [rewrite Hcall; unfold movies_list_of;
          rewrite py_slice_empty_count by auto; reflexivity|].
  split; [rewrite Hcall; unfold movies_list_of;
          rewrite (py_slice_empty_count _ (-1)) by auto; reflexivity|].
  intros n Hn HM.
  assert (Hslice : movies_list_of row n
                   = firstn (Z.to_nat (Z.of_nat (length movies_df) + n))
                       (tl (ranked row))).
  { unfold movies_list_of.
    rewrite py_slice_negative_count, ranked_length, Hlen;
      [reflexivity | exact Hn | rewrite ranked_length, Hlen; exact HM]. }
  assert (Hcount : length (map (render movies_df)
                             (firstn (Z.to_nat (Z.of_nat (length movies_df) + n))
                                (tl (ranked row))))
                   = Z.to_nat (Z.of_nat (length movies_df) + n)).
  { rewrite length_map, length_firstn.
    assert (length (tl (ranked row)) = (length movies_df - 1)%nat).
    { rewrite <- Hlen, <- (ranked_length row).
      destruct (ranked row); simpl; lia. }
    lia. }
  eexists; split; [rewrite Hcall, Hslice; reflexivity|].
  split; [reflexivity|]; split; [exact Hcount|].
  intros Hnil; rewrite Hnil in Hcount; simpl in Hcount; lia.
Qed.

Lemma count_is_not_checked_witness :
  is_error (get_recommendations "A" abc abc_similarity 0) = false
  /\ get_recommendations "A" abc abc_similarity 0 = Ok (Some [])
  /\ get_recommendations "A" abc abc_similarity (-1) = Ok (Some [])
  /\ exists recs,
       get_recommendations "A" abc abc_similarity (-2) = Ok (Some recs)
       /\ recs = map (render abc)
                   (firstn (Z.to_nat (Z.of_nat (length abc) + -2))
                      (tl (ranked [1; 8 # 10; 2 # 10]%Q)))
       /\ length recs = Z.to_nat (Z.of_nat (length abc) + -2)
       /\ recs <> [].
Proof.
  destruct (count_is_not_checked abc abc_similarity "A" 0
              [1; 8 # 10; 2 # 10]%Q eq_refl eq_refl eq_refl)
    as (Hany & Hzero & Hminus & Hneg).
  split; [apply Hany|]; split; [exact Hzero|]; split; [exact Hminus|].
  apply Hneg; simpl; lia.
Defined.

(** ** [None] and the exceptions *)

(** C10. The call returns [None] exactly when its body raises
    [IndexError]. That happens for a title no row carries, for a label
    beyond the rows of the matrix, and for a row whose slice holds an
    index beyond the catalog; the three cannot be told apart in the
    result. The handler lets every other exception through. *)
Theorem none_exactly_on_index_error (movies_df : DataFrame)
  (similarity : Matrix) (movie_title : string) (n : Z) :
  (get_recommendations movie_title movies_df similarity n = Ok None
   <-> get_recommendations_body movie_title movies_df similarity n
       = Raise IndexError)
  /\ (~ In movie_title (movie_list movies_df) ->
      get_recommendations movie_title movies_df similarity n = Ok None)
  /\ (forall i,
        index_0 (rows_with_title movies_df movie_title) = Ok i ->
        nth_error similarity i = None ->
        get_recommendations movie_title movies_df similarity n = Ok None)
  /\ (forall i row,
        index_0 (rows_with_title movies_df movie_title) = Ok i ->
        nth_error similarity i = Some row ->
        Exists (fun p => (length movies_df <= fst p)%nat)
          (movies_list_of row n) ->
        get_recommendations movie_title movies_df similarity n = Ok None)
  /\ (forall e,
        e <> IndexError ->
        get_recommendations_body movie_title movies_df similarity n
        = Raise e ->
        get_recommendations movie_title movies_df similarity n = Raise e)
  /\ (forall (A : Type) (e : exn),
        e <> IndexError ->
        try_except_IndexError (@Raise A e) = Raise e).
Proof.
  repeat split.
  - unfold get_recommendations.
    destruct (get_recommendations_body _ _ _ _) as [recs|e]; simpl;
      [discriminate|].
    destruct e; simpl; intros H; try discriminate H; reflexivity.
  - unfold get_recommendations; intros ->; reflexivity.
  - intros Hnot; unfold get_recommendations, get_recommendations_body.
    rewrite rows_with_title_none by exact Hnot; reflexivity.
  - intros i Hi Hrow; unfold get_recommendations, get_recommendations_body.
    rewrite Hi; simpl; unfold getitem; rewrite Hrow; reflexivity.
  - intros i row Hi Hrow Hex.
    rewrite (get_recommendations_row _ _ _ _ _ _ Hi Hrow).
    rewrite append_recommendations_raise by exact Hex; reflexivity.
  - intros e He Hbody; unfold get_recommendations; rewrite Hbody.
    destruct e; simpl; try reflexivity; contradiction He; reflexivity.
  - intros A e He; destruct e; simpl; try reflexivity.
    contradiction He; reflexivity.
Qed.

Lemma none_exactly_on_index_error_witness :
  get_recommendations "Z" abc abc_similarity 2 = Ok None
  /\ get_recommendations "B" abc long_row_similarity 2 = Ok None
  /\ get_recommendations "A" abc long_row_similarity 2 = Ok None
  /\ try_except_IndexError (@Raise (list dict) KeyError) = Raise KeyError.
Proof.
  split; [|split; [|split]].
  - apply (proj1 (proj2 (none_exactly_on_index_error abc abc_similarity
                           "Z" 2))).
    simpl; intros [H | [H | [H | H]]]; try discriminate; exact H.
  - apply (proj1 (proj2 (proj2 (none_exactly_on_index_error abc
                                  long_row_similarity "B" 2)))
             1%nat); reflexivity.
  - apply (proj1 (proj2 (proj2 (proj2 (none_exactly_on_index_error abc
                                         long_row_similarity "A" 2))))
             0%nat [1; 1 # 2; 1 # 2; 9 # 10]%Q); try reflexivity.
    apply Exists_cons_hd; simpl; lia.
  - apply (proj2 (proj2 (proj2 (proj2 (proj2 (none_exactly_on_index_error
                                                abc abc_similarity "A" 2)))))
             (list dict) KeyError).
    discriminate.
Defined.

(** * Further properties of the code *)

(** ** What a call returns *)

(** A call that returns a list returns the rendered slice of the row the
    title leads to, and all indices of the slice are positions of the
    catalog. *)
Lemma get_recommendations_some (movie_title : string) (movies_df : DataFrame)
  (similarity : Matrix) (n : Z) (recs : list dict) :
  get_recommendations movie_title movies_df similarity n = Ok (Some recs) ->
  exists (i : nat) (row : list Q),
    index_0 (rows_with_title movies_df movie_title) = Ok i
    /\ nth_error similarity i = Some row
    /\ Forall (fun p => (fst p < length movies_df)%nat) (movies_list_of row n)
    /\ recs = map (render movies_df) (movies_list_of row n).
Proof.
  unfold get_recommendations, get_recommendations_body; intros H.
  destruct (index_0 (rows_with_title movies_df movie_title)) as [i|e] eqn:Hi;
    simpl in H; [|destruct e; discriminate].
  unfold getitem in H.
  destruct (nth_error similarity i) as [row|] eqn:Hrow; simpl in H;
    [|discriminate].
  exists i, row; split; [reflexivity|]; split; [exact Hrow|].
  destruct (append_recommendations_cases movies_df (movies_list_of row n) [])
    as [[Hall Hok] | [_ Hraise]]; rewrite ?Hok, ?Hraise in H; simpl in H;
    [|discriminate].
  split; [exact Hall | congruence].
Qed.

(** [l[1:stop]] is a prefix of the tail, whatever the stop. *)
Lemma py_slice_after_head {A : Type} (l : list A) (stop : Z) :
  exists k, py_slice l 1 stop = firstn k (tl l).
Proof.
  unfold py_slice; destruct l as [|a l].
  - exists 0%nat; rewrite skipn_nil, firstn_nil; reflexivity.
  - replace (slice_bound (Z.of_nat (length (a :: l))) 1) with 1.
    + eexists; reflexivity.
    + unfold slice_bound; simpl length; destruct (1 <? 0) eqn:E; lia.
Qed.

Lemma movies_list_after_head (row : list Q) (n : Z) :
  exists k, movies_list_of row n = firstn k (tl (ranked row)).
Proof. apply py_slice_after_head. Qed.

Lemma enumerate_from_indices (k : nat) (l : list Q) :
  map fst (enumerate_from k l) = seq k (length l).
Proof.
  revert k; induction l as [|d l IH]; intros k; simpl; [reflexivity|].
  rewrite IH; reflexivity.
Qed.

Lemma ranked_indices_distinct (row : list Q) : NoDup (map fst (ranked row)).
Proof.
  apply (Permutation_NoDup
           (Permutation_map fst (Permutation_sym (ranked_perm row)))).
  unfold enumerate; rewrite enumerate_from_indices; apply seq_NoDup.
Qed.

Lemma NoDup_firstn {A : Type} (k : nat) (l : list A) :
  NoDup l -> NoDup (firstn k l).
Proof.
  intros H; rewrite <- (firstn_skipn k l) in H.
  exact (NoDup_app_remove_r _ _ H).
Qed.

Lemma movies_list_indices_distinct (row : list Q) (n : Z) :
  NoDup (map fst (movies_list_of row n)).
Proof.
  destruct (movies_list_after_head row n) as [k ->].
  rewrite <- firstn_map; apply NoDup_firstn.
  pose proof (ranked_indices_distinct row) as H.
  destruct (ranked row); simpl in *; [constructor|].
  inversion H; assumption.
Qed.

(** X1. No position of the catalog is recommended twice: a list that is
    returned is rendered from pairs of distinct indices, one entry for
    each. *)
Theorem recommended_positions_distinct (movies_df : DataFrame)
  (similarity : Matrix) (movie_title : string) (n : Z) (recs : list dict) :
  get_recommendations movie_title movies_df similarity n = Ok (Some recs) ->
  exists (i : nat) (row : list Q),
    index_0 (rows_with_title movies_df movie_title) = Ok i
    /\ nth_error similarity i = Some row
    /\ recs = map (render movies_df) (movies_list_of row n)
    /\ NoDup (map fst (movies_list_of row n))
    /\ (length recs <= length movies_df)%nat.
Proof.
  intros H.
  destruct (get_recommendations_some _ _ _ _ _ H)
    as (i & row & Hi & Hrow & Hall & ->).
  exists i, row; repeat split; auto using movies_list_indices_distinct.
  rewrite length_map, <- (length_map fst).
  apply Nat.le_trans with (length (seq 0 (length movies_df)));
    [|rewrite length_seq; lia].
  apply NoDup_incl_length; [apply movies_list_indices_distinct|].
  intros j Hj; apply in_map_iff in Hj; destruct Hj as (p & <- & Hp).
  rewrite Forall_forall in Hall; apply in_seq; split; [lia|].
  simpl; apply Hall, Hp.
Qed.

Lemma recommended_positions_distinct_witness :
  exists (i : nat) (row : list Q),
    index_0 (rows_with_title twins "C") = Ok i
    /\ nth_error twins_similarity i = Some row
    /\ [recommendation "D" (5 # 10); recommendation "E" (4 # 10);
        recommendation "A" (3 # 10)]
       = map (render twins) (movies_list_of row 3)
    /\ NoDup (map fst (movies_list_of row 3))
    /\ (length [recommendation "D" (5 # 10); recommendation "E" (4 # 10);
                recommendation "A" (3 # 10)] <= length twins)%nat.
Proof.
  apply (recommended_positions_distinct twins twins_similarity "C" 3).
  reflexivity.
Defined.

(** ** When the query is left out *)

Lemma ranked_head_leads (i : nat) (row : list Q) :
  leads i row -> exists s, hd_error (ranked row) = Some (i, s).
Proof.
  intros (s & Hs & Hlead).
  pose proof (proj2 (ranked_In row i s) Hs) as Hin.
  pose proof (ranked_stable row) as Hsorted.
  destruct (ranked row) as [|[j x] rest] eqn:E; [destruct Hin|].
  simpl; destruct (Nat.eq_dec j i) as [-> | Hne].
  - exists x; reflexivity.
  - exfalso.
    destruct Hin as [Heq | Hin]; [inversion Heq; contradiction|].
    assert (Hjx : nth_error row j = Some x)
      by (apply ranked_In; rewrite E; left; reflexivity).
    inversion Hsorted as [|? ? _ Hall]; subst.
    rewrite Forall_forall in Hall; specialize (Hall _ Hin).
    destruct (Hlead j x Hjx Hne) as [Hlt | [Heq Hij]];
      destruct Hall as [Hlt' | [Heq' Hji]]; simpl in *.
    + exact (Qlt_irrefl _ (Qlt_trans _ _ _ Hlt Hlt')).
    + rewrite Heq' in Hlt; exact (Qlt_irrefl _ Hlt).
    + rewrite Heq in Hlt'; exact (Qlt_irrefl _ Hlt').
    + lia.
Qed.

Lemma movies_list_without_leader (i : nat) (row : list Q) (n : Z) :
  leads i row -> ~ In i (map fst (movies_list_of row n)).
Proof.
  intros Hlead Hin.
  destruct (ranked_head_leads _ _ Hlead) as [s Hhd].
  destruct (movies_list_after_head row n) as [k Hk]; rewrite Hk in Hin.
  pose proof (ranked_indices_distinct row) as Hnd.
  destruct (ranked row) as [|p rest]; simpl in *; [discriminate|].
  inversion Hhd; subst p; inversion Hnd as [|? ? Hnot _]; subst.
  apply Hnot; simpl.
  rewrite <- firstn_map in Hin.
  rewrite <- (firstn_skipn k (map fst rest)); apply in_or_app; left.
  exact Hin.
Qed.

Lemma title_at_injective (movies_df : DataFrame) (i j : nat) :
  NoDup (movie_list movies_df) ->
  (i < length movies_df)%nat -> (j < length movies_df)%nat ->
  title_at movies_df i = title_at movies_df j -> i = j.
Proof.
  intros Hnd Hi Hj Heq.
  apply (proj1 (NoDup_nth_error (movie_list movies_df)) Hnd);
    [unfold movie_list; rewrite length_map; exact Hi|].
  unfold movie_list; rewrite !nth_error_map.
  unfold title_at in Heq.
  destruct (nth_error movies_df i) eqn:Ei;
    [|apply nth_error_None in Ei; lia].
  destruct (nth_error movies_df j) eqn:Ej;
    [|apply nth_error_None in Ej; lia].
  simpl; congruence.
Qed.

Lemma result_titles_render (movies_df : DataFrame)
  (movies_list : list (nat * Q)) :
  result_titles (map (render movies_df) movies_list)
  = map (fun p => Some (PyStr (title_at movies_df (fst p)))) movies_list.
Proof.
  unfold result_titles; rewrite map_map; reflexivity.
Qed.

(** X2. When the query's own score leads its row (no score of the row is
    higher, and no earlier film has an equal one), the entry dropped is
    the query: its position is not among those recommended and, in a
    catalog of distinct titles, its title is not in the result. *)
Theorem query_left_out_when_it_leads (movies_df : DataFrame)
  (similarity : Matrix) (movie_title : string) (n : Z) (i : nat)
  (row : list Q) :
  range_index movies_df = true ->
  NoDup (movie_list movies_df) ->
  index_0 (rows_with_title movies_df movie_title) = Ok i ->
  nth_error similarity i = Some row ->
  length row = length movies_df ->
  leads i row ->
  ~ In i (map fst (movies_list_of row n))
  /\ get_recommendations movie_title movies_df similarity n
     = Ok (Some (map (render movies_df) (movies_list_of row n)))
  /\ ~ In (Some (PyStr movie_title))
         (result_titles (map (render movies_df) (movies_list_of row n))).
Proof.
  intros Hidx Hnd Hi Hrow Hlen Hlead.
  pose proof (movies_list_without_leader _ _ n Hlead) as Hout.
  split; [exact Hout|].
  split; [apply (get_recommendations_fitting_row _ _ _ _ _ _ Hi Hrow Hlen)|].
  rewrite result_titles_render; intros Hin.
  apply in_map_iff in Hin; destruct Hin as ([j s] & Heq & Hp).
  simpl in Heq; inversion Heq as [Ht].
  assert (Hin : In movie_title (movie_list movies_df)).
  { apply rows_with_title_In; intros Hnil; rewrite Hnil in Hi; discriminate. }
  destruct (resolve_position _ _ Hidx Hin) as (i' & Hi' & Hlt & Hti & _).
  assert (i' = i) by congruence; subst i'.
  pose proof (movies_list_in_range movies_df row n Hlen) as Hall.
  rewrite Forall_forall in Hall; specialize (Hall _ Hp); simpl in Hall.
  apply Hout, in_map_iff; exists (j, s); split; [|exact Hp]; simpl.
  apply (title_at_injective movies_df); auto; congruence.
Qed.

Lemma abc_row_leads : leads 0 [1; 8 # 10; 2 # 10]%Q.
Proof.
  exists 1%Q; split; [reflexivity|].
  intros [|[|[|j]]] x Hx Hne; simpl in Hx;
    try (destruct j; discriminate);
    try (exfalso; apply Hne; reflexivity);
    inversion Hx; subst; left; reflexivity.
Defined.

Lemma query_left_out_when_it_leads_witness :
  ~ In 0%nat (map fst (movies_list_of [1; 8 # 10; 2 # 10]%Q 2))
  /\ get_recommendations "A" abc abc_similarity 2
     = Ok (Some (map (render abc) (movies_list_of [1; 8 # 10; 2 # 10]%Q 2)))
  /\ ~ In (Some (PyStr "A"))
         (result_titles
            (map (render abc) (movies_list_of [1; 8 # 10; 2 # 10]%Q 2))).
Proof.
  apply (query_left_out_when_it_leads abc abc_similarity "A" 2 0
           [1; 8 # 10; 2 # 10]%Q); try reflexivity.
  - repeat constructor; simpl; intuition discriminate.
  - exact abc_row_leads.
Defined.

(** ** Which pairs are taken *)

Lemma StronglySorted_app_order {A : Type} (R : A -> A -> Prop)
  (l1 l2 : list A) :
  StronglySorted R (l1 ++ l2) ->
  forall a b, In a l1 -> In b l2 -> R a b.
Proof.
  induction l1 as [|x l1 IH]; simpl; intros Hs a b Ha Hb; [contradiction|].
  inversion Hs as [|? ? Hs' Hall]; subst.
  destruct Ha as [-> | Ha]; [|exact (IH Hs' a b Ha Hb)].
  rewrite Forall_forall in Hall; apply Hall, in_or_app; right; exact Hb.
Qed.

(** X3. The result takes the best of what follows the head of the
    ranking: a pair of the ranking that is neither the head nor in the
    result ranks after every pair that is, so it scores no higher. *)
Theorem left_out_pairs_rank_lower (row : list Q) (n : Z) (p q : nat * Q) :
  In p (movies_list_of row n) ->
  In q (tl (ranked row)) ->
  ~ In q (movies_list_of row n) ->
  ranks_before p q /\ (snd q <= snd p)%Q.
Proof.
  intros Hp Hq Hnot.
  destruct (movies_list_after_head row n) as [k Hk]; rewrite Hk in Hp, Hnot.
  assert (Hs : StronglySorted ranks_before (tl (ranked row))).
  { pose proof (ranked_stable row) as H.
    destruct (ranked row); simpl; [constructor | inversion H; assumption]. }
  rewrite <- (firstn_skipn k (tl (ranked row))) in Hs, Hq.
  apply in_app_or in Hq; destruct Hq as [Hq | Hq]; [contradiction|].
  pose proof (StronglySorted_app_order _ _ _ Hs p q Hp Hq) as Hpq.
  split; [exact Hpq | apply ranks_before_score_ge, Hpq].
Qed.

Lemma left_out_pairs_rank_lower_witness :
  ranks_before (1%nat, 8 # 10)%Q (2%nat, 2 # 10)%Q
  /\ (snd (2%nat, 2 # 10) <= snd (1%nat, 8 # 10))%Q.
Proof.
  apply (left_out_pairs_rank_lower [1; 8 # 10; 2 # 10]%Q 1).
  - left; reflexivity.
  - right; left; reflexivity.
  - intros [H | []]; discriminate H.
Defined.

(** X4. Asking for more only adds to the end: for counts
    [0 <= n <= m] the result for [n] is the first [n] entries of the
    result for [m]. *)
Theorem smaller_count_is_a_prefix (movies_df : DataFrame)
  (similarity : Matrix) (movie_title : string) (i : nat) (row : list Q)
  (n m : Z) :
  index_0 (rows_with_title movies_df movie_title) = Ok i ->
  nth_error similarity i = Some row ->
  length row = length movies_df ->
  0 <= n <= m ->
  exists recs_n recs_m,
    get_recommendations movie_title movies_df similarity n = Ok (Some recs_n)
    /\ get_recommendations movie_title movies_df similarity m
       = Ok (Some recs_m)
    /\ recs_n = firstn (Z.to_nat n) recs_m.
Proof.
  intros Hi Hrow Hlen Hnm.
  exists (map (render movies_df) (movies_list_of row n)),
    (map (render movies_df) (movies_list_of row m)).
  split; [apply (get_recommendations_fitting_row _ _ _ _ _ _ Hi Hrow Hlen)|].
  split; [apply (get_recommendations_fitting_row _ _ _ _ _ _ Hi Hrow Hlen)|].
  unfold movies_list_of; rewrite !py_slice_skip_head by lia.
  rewrite firstn_map, firstn_firstn.
  replace (Nat.min (Z.to_nat n) (Z.to_nat m)) with (Z.to_nat n) by lia.
  reflexivity.
Qed.

Lemma smaller_count_is_a_prefix_witness :
  exists recs_n recs_m,
    get_recommendations "C" twins twins_similarity 3 = Ok (Some recs_n)
    /\ get_recommendations "C" twins twins_similarity 10 = Ok (Some recs_m)
    /\ recs_n = firstn (Z.to_nat 3) recs_m.
Proof.
  apply (smaller_count_is_a_prefix twins twins_similarity "C" 2
           [3 # 10; 3 # 10; 1; 5 # 10; 4 # 10]%Q 3 10);
    try reflexivity; lia.
Defined.

(** X5. A row shorter than the catalog goes unnoticed: the call returns
    [min n (len - 1)] entries for a row of [len] scores, all for positions
    below [len], so the films beyond the row are never recommended. *)
Theorem short_row_is_accepted (movies_df : DataFrame) (similarity : Matrix)
  (movie_title : string) (i : nat) (row : list Q) (n : Z) :
  index_0 (rows_with_title movies_df movie_title) = Ok i ->
  nth_error similarity i = Some row ->
  (length row <= length movies_df)%nat ->
  0 <= n ->
  get_recommendations movie_title movies_df similarity n
  = Ok (Some (map (render movies_df) (movies_list_of row n)))
  /\ length (map (render movies_df) (movies_list_of row n))
     = Nat.min (Z.to_nat n) (length row - 1)
  /\ Forall (fun p => (fst p < length row)%nat) (movies_list_of row n).
Proof.
  intros Hi Hrow Hlen Hn.
  assert (Hall : Forall (fun p => (fst p < length row)%nat)
                   (movies_list_of row n)).
  { apply Forall_forall; intros [j s] Hin; simpl.
    apply movies_list_scores in Hin.
    apply nth_error_Some; congruence. }
  split; [|split; [|exact Hall]].
  - rewrite (get_recommendations_row _ _ _ _ _ _ Hi Hrow).
    rewrite append_recommendations_ok; [reflexivity|].
    eapply Forall_impl; [|exact Hall]; simpl; intros; lia.
  - rewrite length_map; apply movies_list_length, Hn.
Qed.

Lemma short_row_is_accepted_witness :
  get_recommendations "A" twins abc_similarity 5
  = Ok (Some (map (render twins) (movies_list_of [1; 8 # 10; 2 # 10]%Q 5)))
  /\ length (map (render twins) (movies_list_of [1; 8 # 10; 2 # 10]%Q 5))
     = Nat.min (Z.to_nat 5) (length [1; 8 # 10; 2 # 10]%Q - 1)
  /\ Forall (fun p => (fst p < length [1; 8 # 10; 2 # 10]%Q)%nat)
       (movies_list_of [1; 8 # 10; 2 # 10]%Q 5).
Proof.
  apply (short_row_is_accepted twins abc_similarity "A" 0
           [1; 8 # 10; 2 # 10]%Q 5); try reflexivity.
  - simpl; lia.
  - lia.
Defined.

(** ** The percentage *)

(** The double 0.50005 lies below 0.50005, its product by 100 rounds up
    to the double next to 50.005, and that is written 50.01; with the
    exact product it would be 50.00. *)
Lemma format_percent_rounds_the_product :
  format_percent (4504049987333233 # 9007199254740992) = "50.01%"
  /\ round_half_even
       ((4504049987333233 # 9007199254740992) * inject_Z 10000) = 5000.
Proof. split; vm_compute; reflexivity. Qed.

(** X6. For a score of magnitude at most 1, the percentage written
    differs from the score by at most half a hundredth of a percent and
    the rounding of the product by 100, which is below 2^-40
    hundredths. *)
Theorem percentage_is_accurate (x : Q) :
  (Qabs x <= 1)%Q ->
  (Qabs (inject_Z (percent_hundredths x) - Qabs x * inject_Z 10000)
   <= (1 # 2) + two_to (-40))%Q.
Proof.
  intros Hx; unfold percent_hundredths.
  pose proof (round_half_even_close (times_100 x * inject_Z 100)) as Hr.
  pose proof (times_100_close x Hx) as Hm.
  set (h := inject_Z (round_half_even (times_100 x * inject_Z 100))) in *.
  set (y := times_100 x) in *.
  assert (E : (h - Qabs x * inject_Z 10000
               == (h - y * inject_Z 100)
                  + (y - Qabs x * inject_Z 100) * inject_Z 100)%Q).
  { change (inject_Z 10000) with (inject_Z 100 * inject_Z 100)%Q; ring. }
  rewrite E.
  eapply Qle_trans; [apply Qabs_triangle|].
  apply Qplus_le_compat; [exact Hr|].
  rewrite Qabs_Qmult; change (Qabs (inject_Z 100)) with (inject_Z 100).
  apply Qle_trans with (two_to (-47) * inject_Z 100)%Q.
  - apply Qmult_le_compat_r; [exact Hm | discriminate].
  - vm_compute; discriminate.
Qed.

Lemma percentage_is_accurate_witness :
  (Qabs (inject_Z (percent_hundredths
                     (4504049987333233 # 9007199254740992))
         - Qabs (4504049987333233 # 9007199254740992) * inject_Z 10000)
   <= (1 # 2) + two_to (-40))%Q.
Proof.
  apply (percentage_is_accurate (4504049987333233 # 9007199254740992)).
  vm_compute; discriminate.
Defined.

Lemma times_100_monotone (x y : Q) :
  (0 <= x)%Q -> (x <= y)%Q -> (times_100 x <= times_100 y)%Q.
Proof.
  intros Hx Hxy; apply round_binary64_monotone.
  rewrite !Qabs_pos by lra.
  apply Qmult_le_compat_r; [exact Hxy | discriminate].
Qed.

Lemma two_digits_length (k : Z) :
  0 <= k < 100 -> String.length (two_digits k) = 2%nat.
Proof.
  intros Hk.
  assert (Hall : forallb (fun j => Nat.eqb
                            (String.length (two_digits (Z.of_nat j))) 2)
                   (seq 0 100) = true) by (vm_compute; reflexivity).
  rewrite forallb_forall in Hall.
  specialize (Hall (Z.to_nat k)); rewrite Z2Nat.id in Hall by lia.
  apply Nat.eqb_eq, Hall, in_seq; lia.
Qed.

(** X7. A score between 0 and 1 is written without a sign, as a whole
    part from 0 to 100, a point, exactly two digits and the percent
    sign; the digits are those of the double product by 100, rounded to
    two decimals. *)
Theorem unit_score_format (x : Q) :
  (0 <= x)%Q -> (x <= 1)%Q ->
  0 <= percent_hundredths x <= 10000
  /\ format_percent x
     = decimal (percent_hundredths x / 100) ++ "."
         ++ two_digits (percent_hundredths x mod 100) ++ "%"
  /\ 0 <= percent_hundredths x / 100 <= 100
  /\ String.length (two_digits (percent_hundredths x mod 100)) = 2%nat.
Proof.
  intros H0 H1.
  assert (Hrange : 0 <= percent_hundredths x <= 10000).
  { split.
    - replace 0 with (percent_hundredths 0) by (vm_compute; reflexivity).
      apply percent_hundredths_monotone; [apply Qle_refl | exact H0].
    - replace 10000 with (percent_hundredths 1)
        by (vm_compute; reflexivity).
      apply percent_hundredths_monotone; assumption. }
  split; [exact Hrange|]; split; [|split].
  - unfold format_percent.
    replace (float_lt x 0) with false
      by (symmetry; apply float_lt_false; exact H0).
    replace (double_overflows (times_100 x)) with false; [reflexivity|].
    symmetry; unfold double_overflows.
    destruct (Qle_bool (two_to 1024) (times_100 x)) eqn:E; [|reflexivity].
    apply Qle_bool_iff in E; exfalso.
    pose proof (times_100_monotone x 1 H0 H1) as Hy.
    assert (Hbig : (times_100 1 < two_to 1024)%Q)
      by (vm_compute; reflexivity).
    exact (Qlt_not_le _ _ Hbig (Qle_trans _ _ _ E Hy)).
  - split; [apply Z.div_pos; lia|].
    apply Z.div_le_upper_bound; lia.
  - apply two_digits_length, Z.mod_pos_bound; lia.
Qed.

Lemma unit_score_format_witness :
  0 <= percent_hundredths (8 # 10) <= 10000
  /\ format_percent (8 # 10)
     = decimal (percent_hundredths (8 # 10) / 100) ++ "."
         ++ two_digits (percent_hundredths (8 # 10) mod 100) ++ "%"
  /\ 0 <= percent_hundredths (8 # 10) / 100 <= 100
  /\ String.length (two_digits (percent_hundredths (8 # 10) mod 100))
     = 2%nat.
Proof.
  apply (unit_score_format (8 # 10)); discriminate.
Defined.

(** ** More on the search *)

(** X8. On ASCII text (query and titles) and for a query without
    pattern characters the search returns, in catalog order, exactly the
    titles in which the query occurs once both are lower-cased. *)
Theorem plain_search_finds_substrings (movies_df : DataFrame) (q : string) :
  plain_query q = true ->
  ascii_text q = true ->
  forallb ascii_text (movie_list movies_df) = true ->
  exists l,
    search movies_df q = Some (Ok l)
    /\ l = filter (ci_substring q) (movie_list movies_df)
    /\ forall t, In t l <-> In t (movie_list movies_df) /\ contains_ci q t.
Proof.
  intros Hq Ha Ht; exists (search_literal movies_df q).
  split; [apply search_plain_query; assumption|]; split; [reflexivity|].
  intros t; unfold search_literal.
  rewrite filter_In, ci_substring_spec; reflexivity.
Qed.

Lemma plain_search_finds_substrings_witness :
  exists l,
    search (catalog ["Batman Begins"; "Heat"; "The Batman"]) "bat"
    = Some (Ok l)
    /\ l = filter (ci_substring "bat")
             (movie_list (catalog ["Batman Begins"; "Heat"; "The Batman"]))
    /\ forall t,
         In t l <->
         In t (movie_list (catalog ["Batman Begins"; "Heat"; "The Batman"]))
         /\ contains_ci "bat" t.
Proof.
  apply (plain_search_finds_substrings
           (catalog ["Batman Begins"; "Heat"; "The Batman"]) "bat");
    reflexivity.
Defined.



Lemma search_results_in_catalog (movies_df : DataFrame) (q : string)
  (l : list string) :
  search movies_df q = Some (Ok l) -> incl l (movie_list movies_df).
Proof.
  unfold search, filtered_movies; intros H t Ht.
  destruct q as [|c q]; [inversion H; subst; exact Ht|].
  destruct (re_compile (String c q)) as [[items|e]|]; try discriminate.
  destruct (forallb ascii_text (movie_list movies_df)); [|discriminate].
  inversion H; subst; apply filter_In in Ht; tauto.
Qed.



(** ** The cached loader over reruns *)

Lemma reruns_cached (v : option DataFrame * option Matrix)
  (visits : list Files) :
  Forall (eq v) (reruns (Some v) visits).
Proof.
  induction visits as [|fs rest IH]; simpl; constructor; auto.
Qed.

(** X11. However often the script runs again, and whatever the files are
    by then, the loader gives what its first call gave; a failed first
    load is served again as well. *)
Theorem reruns_repeat_first_load (fs : Files) (later : list Files) :
  Forall (eq (fst (load_data fs))) (reruns None (fs :: later))
  /\ length (reruns None (fs :: later)) = S (length later).
Proof.
  split.
  - simpl; constructor; [reflexivity | apply reruns_cached].
  - simpl; f_equal.
    generalize (Some (fst (load_data fs))).
    induction later as [|fs' rest IH]; intros c; simpl; [reflexivity|].
    rewrite IH; reflexivity.
Qed.

(** ** The page *)

Lemma load_data_ok (fs : Files) (movies_df : DataFrame)
  (similarity : Matrix) :
  movies_data_pkl fs = Pickled movies_df ->
  similarity_pkl fs = Pickled similarity ->
  load_data fs = ((Some movies_df, Some similarity), []).
Proof. unfold load_data; intros -> ->; reflexivity. Qed.

(** X12. When either artifact cannot be read the page shows the data
    message and nothing else, whatever the user does: the script stops
    before any widget. *)
Theorem page_stops_without_data (fs : Files) (v : Visit) :
  (forall movies_df, movies_data_pkl fs <> Pickled movies_df)
  \/ (forall similarity, similarity_pkl fs <> Pickled similarity) ->
  main fs v = Some (Ok [st_error data_files_not_found]).
Proof.
  intros H; unfold main, load_data.
  destruct (movies_data_pkl fs) as [| |df] eqn:Em;
    destruct (similarity_pkl fs) as [| |sim] eqn:Es; try reflexivity.
  exfalso; destruct H as [H | H]; [apply (H df) | apply (H sim)]; reflexivity.
Qed.

Lemma page_stops_without_data_witness :
  main {| movies_data_pkl := Pickled abc; similarity_pkl := Corrupt |}
    {| thumb := Some 4%nat; picked := Some 1%nat; typed := "b";
       picked_result := None; button := true |}
  = Some (Ok [st_error data_files_not_found]).
Proof.
  apply page_stops_without_data.
  right; intros similarity; discriminate.
Defined.

Lemma selectbox_first {A : Type} (options : list A) (picked : option nat) :
  match selectbox options 0 picked with
  | Some a => In a options
  | None => options = []
  end.
Proof.
  unfold selectbox; destruct picked as [k|].
  - destruct (nth_error options k) as [a|] eqn:E;
      [exact (nth_error_In _ _ E)|].
    destruct options as [|a l]; simpl; auto.
  - destruct options as [|a l]; simpl; auto.
Qed.

Lemma choose_movie_in_catalog (movies_df : DataFrame)
  (picked : option nat) (search_query : string) (picked_result : option nat)
  (selected_movie : option string) :
  choose_movie movies_df picked search_query picked_result
  = Some (Ok selected_movie) ->
  match selected_movie with
  | Some t => In t (movie_list movies_df)
  | None => movies_df = []
  end.
Proof.
  unfold choose_movie; intros H.
  pose proof (selectbox_first (movie_list movies_df) picked) as Hbox.
  assert (Hall : forall sel,
             selectbox (movie_list movies_df) 0 picked = sel ->
             match sel with
             | Some t => In t (movie_list movies_df)
             | None => movies_df = []
             end).
  { intros sel <-.
    destruct (selectbox (movie_list movies_df) 0 picked); [exact Hbox|].
    destruct movies_df; [reflexivity | discriminate]. }
  destruct search_query as [|c q]; [inversion H; subst; apply Hall; reflexivity|].
  destruct (filtered_movies movies_df (String c q)) as [[[|t rest]|e]|] eqn:E;
    try discriminate; [inversion H; subst; apply Hall; reflexivity|].
  inversion H; subst selected_movie.
  assert (Hincl : incl (t :: rest) (movie_list movies_df)).
  { apply (search_results_in_catalog movies_df (String c q)); exact E. }
  pose proof (selectbox_first (t :: rest) picked_result) as Hres.
  destruct (selectbox (t :: rest) 0 picked_result); [apply Hincl, Hres|].
  discriminate.
Qed.



Lemma cards_from_render (movies_df : DataFrame)
  (movies_list : list (nat * Q)) (idx : nat) :
  exists cards,
    cards_from idx (map (render movies_df) movies_list) = Ok cards
    /\ length cards = length movies_list
    /\ forall j p,
         nth_error movies_list j = Some p ->
         nth_error cards j
         = Some (movie_card ((idx + j) mod 2) (idx + j + 1)
                   (PyStr (title_at movies_df (fst p)))
                   (PyStr (format_percent (snd p)))).
Proof.
  revert idx; induction movies_list as [|p rest IH]; intros idx.
  - exists []; repeat split; intros [|j] q H; discriminate H.
  - destruct (IH (S idx)) as (more & Hmore & Hlen & Hnth).
    exists (movie_card (idx mod 2) (idx + 1)
              (PyStr (title_at movies_df (fst p)))
              (PyStr (format_percent (snd p))) :: more).
    split; [|split].
    + change (map (render movies_df) (p :: rest))
        with (render movies_df p :: map (render movies_df) rest).
      cbn [cards_from]; rewrite Hmore; reflexivity.
    + simpl; rewrite Hlen; reflexivity.
    + intros [|j] q Hq; simpl in Hq.
      * inversion Hq; subst; rewrite Nat.add_0_r; reflexivity.
      * simpl; rewrite (Hnth j q Hq).
        replace (idx + S j)%nat with (S idx + j)%nat by lia; reflexivity.
Qed.

(** X14. The cards of a result alternate between the two columns,
    starting on the left, and are numbered from 1 in the order of the
    result; each shows the title and the percentage of its entry. *)
Theorem cards_alternate_columns (movies_df : DataFrame)
  (movies_list : list (nat * Q)) (j : nat) (p : nat * Q) :
  nth_error movies_list j = Some p ->
  exists cards,
    cards_from 0 (map (render movies_df) movies_list) = Ok cards
    /\ length cards = length movies_list
    /\ nth_error cards j
       = Some (movie_card (j mod 2) (j + 1)
                 (PyStr (title_at movies_df (fst p)))
                 (PyStr (format_percent (snd p)))).
Proof.
  intros Hj.
  destruct (cards_from_render movies_df movies_list 0)
    as (cards & Hcards & Hlen & Hnth).
  exists cards; split; [exact Hcards|]; split; [exact Hlen|].
  exact (Hnth j p Hj).
Qed.

Lemma cards_alternate_columns_witness :
  exists cards,
    cards_from 0 (map (render abc) [(1%nat, 8 # 10); (2%nat, 2 # 10)]%Q)
    = Ok cards
    /\ length cards = length [(1%nat, 8 # 10); (2%nat, 2 # 10)]%Q
    /\ nth_error cards 1
       = Some (movie_card (1 mod 2) (1 + 1)
                 (PyStr (title_at abc (fst (2%nat, 2 # 10)%Q)))
                 (PyStr (format_percent (snd (2%nat, 2 # 10)%Q)))).
Proof.
  apply (cards_alternate_columns abc
           [(1%nat, 8 # 10); (2%nat, 2 # 10)]%Q 1 (2%nat, 2 # 10)%Q).
  reflexivity.
Defined.



(** X16. On ASCII text a plain query that is not empty decides the
    selection: when no title contains it the choice of the dropdown
    stands, and when some do, the movie selected is one of the catalog
    that contains the query, whatever the dropdown shows. *)
Theorem search_narrows_selection (movies_df : DataFrame)
  (picked : option nat) (q : string) (picked_result : option nat) :
  plain_query q = true -> q <> EmptyString ->
  ascii_text q = true ->
  forallb ascii_text (movie_list movies_df) = true ->
  exists selected_movie,
    choose_movie movies_df picked q picked_result = Some (Ok selected_movie)
    /\ (search_literal movies_df q = [] ->
        selected_movie = selectbox (movie_list movies_df) 0 picked)
    /\ (search_literal movies_df q <> [] ->
        exists t,
          selected_movie = Some t
          /\ In t (movie_list movies_df) /\ contains_ci q t).
Proof.
  intros Hq Hne Ha Ht; destruct q as [|c q]; [contradiction Hne; reflexivity|].
  pose proof (search_plain_query movies_df _ Hq Ha Ht) as Hs.
  unfold choose_movie; simpl in Hs; rewrite Hs.
  destruct (search_literal movies_df (String c q)) as [|t rest] eqn:E.
  - eexists; split; [reflexivity|]; split; [reflexivity|].
    intros H; contradiction H; reflexivity.
  - pose proof (selectbox_first (t :: rest) picked_result) as Hbox.
    destruct (selectbox (t :: rest) 0 picked_result) as [t'|];
      [|discriminate].
    exists (Some t'); split; [reflexivity|]; split; [discriminate|].
    intros _; exists t'; split; [reflexivity|].
    rewrite <- E in Hbox; unfold search_literal in Hbox.
    apply filter_In in Hbox; rewrite ci_substring_spec in Hbox; exact Hbox.
Qed.

Lemma search_narrows_selection_witness :
  exists selected_movie,
    choose_movie (catalog ["Batman Begins"; "Heat"; "The Batman"])
      (Some 1%nat) "BAT" (Some 1%nat)
    = Some (Ok selected_movie)
    /\ (search_literal (catalog ["Batman Begins"; "Heat"; "The Batman"])
          "BAT" = [] ->
        selected_movie
        = selectbox
            (movie_list (catalog ["Batman Begins"; "Heat"; "The Batman"]))
            0 (Some 1%nat))
    /\ (search_literal (catalog ["Batman Begins"; "Heat"; "The Batman"])
          "BAT" <> [] ->
        exists t,
          selected_movie = Some t
          /\ In t (movie_list
                     (catalog ["Batman Begins"; "Heat"; "The Batman"]))
          /\ contains_ci "BAT" t).
Proof.
  apply (search_narrows_selection
           (catalog ["Batman Begins"; "Heat"; "The Batman"])
           (Some 1%nat) "BAT" (Some 1%nat));
    [reflexivity | discriminate | reflexivity | reflexivity].
Defined.

(** X17. A query that begins with a repetition sign stops the page with
    the pattern error of the string backend ([re.error] or
    [ArrowInvalid]): the exception of the filter is not caught, whatever
    the titles are and whatever else the user did. *)
Theorem page_raises_on_repetition_sign (fs : Files) (v : Visit)
  (movies_df : DataFrame) (similarity : Matrix) (c : ascii) (rest : string) :
  movies_data_pkl fs = Pickled movies_df ->
  similarity_pkl fs = Pickled similarity ->
  typed v = String c rest ->
  ascii_in c "*+?" = true ->
  main fs v = Some (Raise PatternError).
Proof.
  intros Hm Hs Ht Hc; unfold main.
  rewrite (load_data_ok _ _ _ Hm Hs); cbn [fst snd].
  unfold choose_movie, filtered_movies, re_compile; rewrite Ht, Hc.
  reflexivity.
Qed.

Lemma page_raises_on_repetition_sign_witness :
  main {| movies_data_pkl := Pickled abc;
          similarity_pkl := Pickled abc_similarity |}
    {| thumb := None; picked := None; typed := "?"; picked_result := None;
       button := false |}
  = Some (Raise PatternError).
Proof.
  apply (page_raises_on_repetition_sign _ _ abc abc_similarity "?"
           EmptyString); reflexivity.
Defined.

(** X18. When the query's score leads its row and the count is at least
    the number of other films, every other film is recommended, each
    once: the query's position and the positions recommended together
    are all positions of the row. *)
Theorem large_count_recommends_all_others (movies_df : DataFrame)
  (similarity : Matrix) (movie_title : string) (i : nat) (row : list Q)
  (n : Z) :
  index_0 (rows_with_title movies_df movie_title) = Ok i ->
  nth_error similarity i = Some row ->
  length row = length movies_df ->
  leads i row ->
  Z.of_nat (length row) - 1 <= n ->
  get_recommendations movie_title movies_df similarity n
  = Ok (Some (map (render movies_df) (movies_list_of row n)))
  /\ Permutation (i :: map fst (movies_list_of row n)) (seq 0 (length row)).
Proof.
  intros Hi Hrow Hlen Hlead Hn.
  split; [apply (get_recommendations_fitting_row _ _ _ _ _ _ Hi Hrow Hlen)|].
  destruct (ranked_head_leads _ _ Hlead) as [s Hhd].
  pose proof (ranked_length row) as Hrl.
  pose proof (Permutation_map fst (ranked_perm row)) as Hperm.
  unfold enumerate in Hperm; rewrite enumerate_from_indices in Hperm.
  unfold movies_list_of.
  destruct (ranked row) as [|p rest] eqn:E; [discriminate|].
  simpl in Hhd; inversion Hhd; subst p; simpl in Hrl.
  rewrite py_slice_skip_head by lia; simpl tl.
  rewrite firstn_all2 by lia; exact Hperm.
Qed.

Lemma large_count_recommends_all_others_witness :
  get_recommendations "A" abc abc_similarity 10
  = Ok (Some (map (render abc) (movies_list_of [1; 8 # 10; 2 # 10]%Q 10)))
  /\ Permutation (0%nat :: map fst (movies_list_of [1; 8 # 10; 2 # 10]%Q 10))
       (seq 0 (length [1; 8 # 10; 2 # 10]%Q)).
Proof.
  apply (large_count_recommends_all_others abc abc_similarity "A" 0
           [1; 8 # 10; 2 # 10]%Q 10); try reflexivity.
  - exact abc_row_leads.
  - simpl; lia.
Defined.
